(** * Customer lookup service (app.py): shallow embedding and properties

    The program loads a semicolon separated table of customer records,
    normalises the phone column, patches one fixed row, builds two
    dictionaries (phone -> row position, contract code -> row position)
    and answers HTTP lookups through them.

    Modelling conventions.
    - A Python [str] is a [string]; each [ascii] stands for one code
      point below 256.  On that range the regex class [\d] is exactly
      ['0'..'9'] and [str.isspace] holds for the code points
      9-13, 28-31, 32, 133 and 160.
    - A [dict] used as an index is a [gmap]; the dict returned by
      [slice_row] keeps Python's insertion order (association list).
    - The data frame is its column labels and its rows, a row being a
      finite map from column label to cell.  The model starts after
      [pd.read_csv(...).fillna("")]: every cell is a string.
    - [abort(code, description)] is the response [Abort code description];
      [jsonify(body)] is [Ok body].  An exception raised inside a handler's
      [try] block becomes the handler's [abort(500, ...)]. *)

From Stdlib Require Import ZArith Ascii String List Bool Lia.
From stdpp Require Import base option list strings gmap fin_maps.

Open Scope string_scope.

(* ================================================================== *)
(** ** Python string primitives *)
(* ================================================================== *)

Module PyStr.

Definition code (c : ascii) : nat := nat_of_ascii c.

Definition LF : ascii := ascii_of_nat 10.

(** [str.isspace] on one code point (code points below 256). *)
Definition isspace (c : ascii) : bool :=
  existsb (Nat.eqb (code c)) [9; 10; 11; 12; 13; 28; 29; 30; 31; 32; 133; 160]%nat.

(** The regex class [\d]. *)
Definition isdigit (c : ascii) : bool :=
  (48 <=? code c)%nat && (code c <=? 57)%nat.

(** Dropping the leading, resp. trailing, characters that satisfy [p]. *)
Fixpoint lstrip_by (p : ascii -> bool) (s : string) : string :=
  match s with
  | EmptyString => EmptyString
  | String c s' => if p c then lstrip_by p s' else s
  end.

Fixpoint rstrip_by (p : ascii -> bool) (s : string) : string :=
  match s with
  | EmptyString => EmptyString
  | String c s' =>
      match rstrip_by p s' with
      | EmptyString => if p c then EmptyString else String c EmptyString
      | r => String c r
      end
  end.

(** [s.strip()] *)
Definition strip (s : string) : string := rstrip_by isspace (lstrip_by isspace s).

(** [s.replace(c, "")] for a one-character [c]: every occurrence goes. *)
Fixpoint remove_char (c : ascii) (s : string) : string :=
  match s with
  | EmptyString => EmptyString
  | String d s' =>
      if Ascii.eqb d c then remove_char c s' else String d (remove_char c s')
  end.

(** [s.startswith(p)] *)
Definition startswith (s p : string) : bool := String.prefix p s.

(** [s[n:]] *)
Fixpoint drop (n : nat) (s : string) : string :=
  match n, s with
  | O, _ => s
  | S _, EmptyString => EmptyString
  | S n', String _ s' => drop n' s'
  end.

(** [s.split(sep)] for a one-character separator. *)
Fixpoint split (sep : ascii) (s : string) : list string :=
  match s with
  | EmptyString => [EmptyString]
  | String c s' =>
      if Ascii.eqb c sep then EmptyString :: split sep s'
      else match split sep s' with
           | [] => [String c EmptyString]
           | w :: ws => String c w :: ws
           end
  end.

(** [sep.join(l)] *)
Fixpoint join (sep : string) (l : list string) : string :=
  match l with
  | [] => EmptyString
  | [x] => x
  | x :: l' => x +:+ sep +:+ join sep l'
  end.

End PyStr.

(* ================================================================== *)
(** ** Phone normalisation *)
(* ================================================================== *)

(** A character of the class [[\d\+]]. *)
Definition phone_char (c : ascii) : bool :=
  PyStr.isdigit c || Ascii.eqb c "+"%char.

(** [[\d\+]*$] at the current position.  Python's [$] (no MULTILINE flag)
    matches at the end of the string and also just before a newline that
    is the last character of the string. *)
Fixpoint phone_tail_match (s : string) : bool :=
  match s with
  | EmptyString => true
  | String c s' =>
      if phone_char c then phone_tail_match s'
      else Ascii.eqb c PyStr.LF && String.eqb s' EmptyString
  end.

(** [PHONE_REGEX.match(s)] for [PHONE_REGEX = re.compile(r"^[\d\+]+$")],
    as a truth value. *)
Definition PHONE_REGEX_match (s : string) : bool :=
  match s with
  | EmptyString => false
  | String c s' => phone_char c && phone_tail_match s'
  end.

(** [phone.strip().replace(" ", "").replace("-", "")] *)
Definition clean_phone (phone : string) : string :=
  PyStr.remove_char "-"%char (PyStr.remove_char " "%char (PyStr.strip phone)).

Definition normalize_phone (phone : string) : string :=
  let phone := clean_phone phone in
  if negb (PHONE_REGEX_match phone) then phone
  else if PyStr.startswith phone "00" then "+" +:+ PyStr.drop 2 phone
  else if PyStr.startswith phone "+" then phone
  else if PyStr.startswith phone "39" then "+" +:+ phone
  else "+" +:+ phone.

(** The normaliser as section 4.1 of the specification words it: the
    pattern is "one or more characters drawn only from digits and the plus
    sign".  Used only to compare with [normalize_phone]. *)
Fixpoint only_phone_chars (s : string) : bool :=
  match s with
  | EmptyString => true
  | String c s' => phone_char c && only_phone_chars s'
  end.

Definition spec_pattern (s : string) : bool :=
  negb (String.eqb s EmptyString) && only_phone_chars s.

Definition normalize_spec (raw : string) : string :=
  let cleaned := clean_phone raw in
  if negb (spec_pattern cleaned) then cleaned
  else if PyStr.startswith cleaned "00" then "+" +:+ PyStr.drop 2 cleaned
  else if PyStr.startswith cleaned "+" then cleaned
  else if PyStr.startswith cleaned "39" then "+" +:+ cleaned
  else "+" +:+ cleaned.

(** Whether the last character of [s] is a newline. *)
Fixpoint ends_with_LF (s : string) : bool :=
  match s with
  | EmptyString => false
  | String c EmptyString => Ascii.eqb c PyStr.LF
  | String _ s' => ends_with_LF s'
  end.

(** The four characters '1', '2', newline, '-'. *)
Definition newline_hyphen_input : string :=
  String "1" (String "2" (String PyStr.LF (String "-" EmptyString))).

(* ================================================================== *)
(** ** Python values, [int(...)] and JSON bodies *)
(* ================================================================== *)

(** What [rec.get(key, default)] can hand to [int]: a cell (a string) or
    the integer default. *)
Inductive PyVal : Type :=
| VStr (s : string)
| VInt (z : Z).

Module PyInt.

(** The characters [int] skips around the number: the ASCII white space
    of the C parser plus the two non-ASCII spaces below 256, which the
    interpreter turns into a blank first.  The separators 28-31 are not
    among them. *)
Definition int_space (c : ascii) : bool :=
  existsb (Nat.eqb (PyStr.code c)) [9; 10; 11; 12; 13; 32; 133; 160]%nat.

Definition digit_value (c : ascii) : Z := Z.of_nat (PyStr.code c - 48).

(** The digit scan: digits, single underscores between them.  Returns
    the value, the number of digits and the unread rest. *)
Fixpoint scan_digits (prev_us : bool) (acc : Z) (digits : nat) (s : string)
  : option (Z * nat * string) :=
  match s with
  | EmptyString => if prev_us then None else Some (acc, digits, EmptyString)
  | String c s' =>
      if PyStr.isdigit c
      then scan_digits false (10 * acc + digit_value c)%Z (S digits) s'
      else if Ascii.eqb c "_"%char
      then (if prev_us then None else scan_digits true acc digits s')
      else if prev_us then None else Some (acc, digits, s)
  end.

(** [int(s)] for a string, base 10; [None] is [ValueError].
    [max_str_digits] is [sys.get_int_max_str_digits()]: 0 switches the
    limit off. *)
Definition of_str (max_str_digits : nat) (s : string) : option Z :=
  let s1 := PyStr.lstrip_by int_space s in
  let '(sign, s2) :=
    match s1 with
    | String c r =>
        if Ascii.eqb c "+"%char then (1%Z, r)
        else if Ascii.eqb c "-"%char then ((-1)%Z, r)
        else (1%Z, s1)
    | EmptyString => (1%Z, s1)
    end in
  match s2 with
  | String c _ =>
      if Ascii.eqb c "_"%char then None
      else
        match scan_digits false 0%Z 0%nat s2 with
        | Some (v, digits, rest) =>
            if (digits =? 0)%nat then None
            else if (0 <? max_str_digits)%nat && (max_str_digits <? digits)%nat
            then None
            else if String.eqb (PyStr.lstrip_by int_space rest) EmptyString
            then Some (sign * v)%Z
            else None
        | None => None
        end
  | EmptyString => None
  end.

(** [int(v)] *)
Definition int (max_str_digits : nat) (v : PyVal) : option Z :=
  match v with
  | VInt z => Some z
  | VStr s => of_str max_str_digits s
  end.

End PyInt.

#[warnings="-register-all"]
Inductive Json : Type :=
| JStr (s : string)
| JInt (z : Z)
| JObj (members : list (string * Json)).

(** A handler's outcome: [jsonify(body)] or [abort(status, description)]. *)
Inductive Response : Type :=
| Ok (body : Json)
| Abort (status : nat) (description : string).

(** The [try: ... except Exception: abort(500, description=...)] wrapper:
    [None] is a raised exception. *)
Definition try_except (body : option Json) (description : string) : Response :=
  match body with
  | Some j => Ok j
  | None => Abort 500 description
  end.

(** The HTTP status of a response; [jsonify] answers 200. *)
Definition status (r : Response) : nat :=
  match r with
  | Ok _ => 200
  | Abort code _ => code
  end.

Definition BadRequest : nat := 400.
Definition NotFound : nat := 404.
Definition InternalError : nat := 500.

(** The record data a response carries, if any. *)
Definition response_data (r : Response) : option Json :=
  match r with
  | Ok body => Some body
  | Abort _ _ => None
  end.

(* ================================================================== *)
(** ** Data frame, rows and dictionaries *)
(* ================================================================== *)

Abbreviation Row := (gmap string string).

Record DataFrame : Type := mkDataFrame {
  columns : list string;
  rows : list Row
}.

(** A cell; an absent cell reads as the empty string ([fillna("")]). *)
Definition cell (r : Row) (col : string) : string := default EmptyString (r !! col).

(** [df[col]] as the sequence of its values, in row order. *)
Definition df_column (df : DataFrame) (col : string) : list string :=
  (fun r => cell r col) <$> rows df.

(** [df[col] = df[col].apply(f)] *)
Definition df_apply (df : DataFrame) (col : string) (f : string -> string) : DataFrame :=
  {| columns := columns df;
     rows := (fun r => <[col := f (cell r col)]> r) <$> rows df |}.

(** [df.loc[i]]: the row with label [i] of the default integer index;
    [None] is [KeyError]. *)
Definition df_loc (df : DataFrame) (i : nat) : option Row := rows df !! i.

(** [rec.get(key, default)] *)
Definition series_get (rec : Row) (key : string) (dflt : PyVal) : PyVal :=
  match rec !! key with
  | Some s => VStr s
  | None => dflt
  end.

(** A Python dict with string values, in insertion order. *)
Abbreviation PyDict := (list (string * string)).

(** [d[k] = v] *)
Fixpoint dict_set (d : PyDict) (k v : string) : PyDict :=
  match d with
  | [] => [(k, v)]
  | (k', v') :: d' =>
      if String.eqb k' k then (k', v) :: d' else (k', v') :: dict_set d' k v
  end.

(** [{c: rec[c] for c in cols if c in rec}] *)
Definition slice_row (rec : Row) (cols : list string) : PyDict :=
  foldl (fun d c => match rec !! c with
                    | Some v => dict_set d c v
                    | None => d
                    end) [] cols.

Definition json_of_dict (d : PyDict) : Json :=
  JObj ((fun kv => (kv.1, JStr kv.2)) <$> d).

(** [{val: idx for idx, val in enumerate(vals)}] *)
Definition build_index (vals : list string) : gmap string nat :=
  foldl (fun m iv => <[iv.2 := iv.1]> m) ∅ (imap pair vals).

(** The three globals [df, phone_idx, contract_idx]. *)
Record Store : Type := mkStore {
  df : DataFrame;
  phone_idx : gmap string nat;
  contract_idx : gmap string nat
}.

(** What [pd.read_csv(CSV_PATH, sep=CSV_SEP, dtype=str).fillna("")] gives. *)
Inductive ReadCsv : Type :=
| FileNotFoundError
| EmptyDataError
| OtherException (msg : string)
| Frame (raw : DataFrame).

Inductive LoadResult : Type :=
| Loaded (st : Store)
| RuntimeError (msg : string).

(* ================================================================== *)
(** ** The application: loading and the request handlers *)
(* ================================================================== *)

Section App.

(** Configuration, read from the environment at start-up. *)
Variable CSV_PATH : string.
Variable PHONE_COL : string.
Variable CONTRACT_COL : string.
Variable DEFAULT_FIELDS : list string.

(** The interpreter's limit on the digits [int] converts (0: none). *)
Variable int_max_str_digits : nat.

(** The literal patch of row 50 (index 49). *)
Definition patch_row (r : Row) : Row :=
  <[PHONE_COL := normalize_phone "+393478933194"]>
    (<[CONTRACT_COL := "1234566789"]> r).

Definition load_data (src : ReadCsv) : LoadResult :=
  match src with
  | FileNotFoundError => RuntimeError ("CSV file not found at " +:+ CSV_PATH)
  | EmptyDataError => RuntimeError ("CSV file at " +:+ CSV_PATH +:+ " is empty")
  | OtherException msg => RuntimeError ("Error loading data: " +:+ msg)
  | Frame raw =>
      (* Normalize phone numbers in CSV *)
      let df1 :=
        if bool_decide (PHONE_COL ∈ columns raw)
        then df_apply raw PHONE_COL normalize_phone
        else raw in
      (* Validate required columns exist *)
      let required_cols := ([PHONE_COL; CONTRACT_COL] ++ DEFAULT_FIELDS)%list in
      let missing_cols :=
        List.filter (fun col => negb (bool_decide (col ∈ columns df1))) required_cols in
      match missing_cols with
      | _ :: _ =>
          RuntimeError ("Error loading data: Missing required columns: "
                        +:+ PyStr.join ", " missing_cols)
      | [] =>
          (* Overwrite row 50 (index 49) safely if exists *)
          let df2 :=
            if (49 <? List.length (rows df1))%nat
            then {| columns := columns df1; rows := alter patch_row 49%nat (rows df1) |}
            else df1 in
          (* Build lookup indices *)
          Loaded {| df := df2;
                    phone_idx := build_index (df_column df2 PHONE_COL);
                    contract_idx := build_index (df_column df2 CONTRACT_COL) |}
      end
  end.

(** [fields.split(",") if fields else DEFAULT_FIELDS], [fields] being
    [request.args.get('fields')]. *)
Definition wanted_fields (fields : option string) : list string :=
  match fields with
  | Some (String c s) => PyStr.split ","%char (String c s)
  | _ => DEFAULT_FIELDS
  end.

Definition get_by_phone (st : Store) (phone : string) (fields : option string)
  : Response :=
  let normalized_phone := normalize_phone phone in
  match phone_idx st !! normalized_phone with
  | None => Abort 404 ("Phone number not found: " +:+ normalized_phone)
  | Some i =>
      try_except
        (rec ← df_loc (df st) i;
         let wanted := wanted_fields fields in
         Some (JObj [("data", json_of_dict (slice_row rec wanted))]))
        "Internal error retrieving phone data"
  end.

Definition get_by_contract (st : Store) (contract_code : string)
  (fields : option string) : Response :=
  if String.eqb contract_code EmptyString
  then Abort 400 "Contract code is required"
  else
    match contract_idx st !! contract_code with
    | None => Abort 404 "Contract code not found"
    | Some i =>
        try_except
          (rec ← df_loc (df st) i;
           let wanted := wanted_fields fields in
           Some (JObj [("data", json_of_dict (slice_row rec wanted))]))
          "Internal error retrieving contract data"
    end.

Definition get_num_tec (st : Store) (contract_code : string) : Response :=
  match contract_idx st !! contract_code with
  | None => Abort 404 "Contract code not found"
  | Some i =>
      try_except
        (rec ← df_loc (df st) i;
         value ← PyInt.int int_max_str_digits (series_get rec "num_contact_tec" (VInt 0));
         Some (JObj [("num_contact_tec", JInt value)]))
        "Internal error retrieving numTec"
  end.

Definition get_num_amm (st : Store) (contract_code : string) : Response :=
  match contract_idx st !! contract_code with
  | None => Abort 404 "Contract code not found"
  | Some i =>
      try_except
        (rec ← df_loc (df st) i;
         value ← PyInt.int int_max_str_digits (series_get rec "num_contact_amm" (VInt 0));
         Some (JObj [("num_contact_amm", JInt value)]))
        "Internal error retrieving numAmm"
  end.

Definition get_wifi_active (st : Store) (contract_code : string) : Response :=
  match contract_idx st !! contract_code with
  | None => Abort 404 "Contract code not found"
  | Some i =>
      try_except
        (rec ← df_loc (df st) i;
         value ← PyInt.int int_max_str_digits (series_get rec "bb_active" (VInt 0));
         Some (JObj [("bb_active", JInt value)]))
        "Internal error retrieving wifiActive"
  end.

Definition get_user_name (st : Store) (contract_code : string) : Response :=
  match contract_idx st !! contract_code with
  | None => Abort 404 "Contract code not found"
  | Some i =>
      try_except
        (rec ← df_loc (df st) i;
         match series_get rec "user_name" (VStr "") with
         | VStr value => Some (JObj [("user_name", JStr value)])
         | VInt value => Some (JObj [("user_name", JInt value)])
         end)
        "Internal error retrieving userName"
  end.

Definition get_num_tec_by_phone (st : Store) (phone : string) : Response :=
  let normalized_phone := normalize_phone phone in
  match phone_idx st !! normalized_phone with
  | None => Abort 404 "Phone number not found"
  | Some i =>
      try_except
        (rec ← df_loc (df st) i;
         value ← PyInt.int int_max_str_digits (series_get rec "num_contact_tec" (VInt 0));
         Some (JObj [("num_contact_tec", JInt value)]))
        "Internal error retrieving numTec"
  end.

Definition get_num_amm_by_phone (st : Store) (phone : string) : Response :=
  let normalized_phone := normalize_phone phone in
  match phone_idx st !! normalized_phone with
  | None => Abort 404 "Phone number not found"
  | Some i =>
      try_except
        (rec ← df_loc (df st) i;
         value ← PyInt.int int_max_str_digits (series_get rec "num_contact_amm" (VInt 0));
         Some (JObj [("num_contact_amm", JInt value)]))
        "Internal error retrieving numAmm"
  end.

Definition get_wifi_active_by_phone (st : Store) (phone : string) : Response :=
  let normalized_phone := normalize_phone phone in
  match phone_idx st !! normalized_phone with
  | None => Abort 404 "Phone number not found"
  | Some i =>
      try_except
        (rec ← df_loc (df st) i;
         value ← PyInt.int int_max_str_digits (series_get rec "bb_active" (VInt 0));
         Some (JObj [("bb_active", JInt value)]))
        "Internal error retrieving wifiActive"
  end.

Definition get_user_name_by_phone (st : Store) (phone : string) : Response :=
  let normalized_phone := normalize_phone phone in
  match phone_idx st !! normalized_phone with
  | None => Abort 404 "Phone number not found"
  | Some i =>
      try_except
        (rec ← df_loc (df st) i;
         match series_get rec "user_name" (VStr "") with
         | VStr value => Some (JObj [("user_name", JStr value)])
         | VInt value => Some (JObj [("user_name", JInt value)])
         end)
        "Internal error retrieving userName"
  end.

End App.

(** The configuration the program uses when the environment sets nothing,
    and the interpreter's default digit limit. *)
Definition default_CSV_PATH : string := "nlpearl_test_db.csv".
Definition default_PHONE_COL : string := "phone_number".
Definition default_CONTRACT_COL : string := "contract_code".
Definition default_DEFAULT_FIELDS : list string :=
  PyStr.split ","%char
    "contract_code,platform,status,average_arpu,service_type,activation_date".
Definition default_int_max_str_digits : nat := 4300.

(** What a numeric accessor answers for the record [rec] it resolved:
    0 for an absent field, the parsed integer for a cell [int] accepts,
    and the handler's 500 for a cell [int] rejects. *)
Definition numeric_accessor_contract (max_str_digits : nat) (response : Response)
  (rec : Row) (field : string) : Prop :=
  (rec !! field = None -> response = Ok (JObj [(field, JInt 0)])) /\
  (forall s n, rec !! field = Some s -> PyInt.of_str max_str_digits s = Some n ->
               response = Ok (JObj [(field, JInt n)])) /\
  (forall s, rec !! field = Some s -> PyInt.of_str max_str_digits s = None ->
             status response = InternalError /\ response_data response = None).

(** *** Sample data *)

Definition sample_columns : list string :=
  ["phone_number"; "contract_code"; "platform"; "status"; "average_arpu";
   "service_type"; "activation_date"; "num_contact_tec"].

(** A record with the required columns and [num_contact_tec]; the columns
    [num_contact_amm], [bb_active] and [user_name] are absent. *)
Definition sample_row (phone contract tec : string) : Row :=
  list_to_map
    [("phone_number", phone); ("contract_code", contract); ("platform", "ftth");
     ("status", "active"); ("average_arpu", "29.9"); ("service_type", "fibra");
     ("activation_date", "2021-03-01"); ("num_contact_tec", tec)].

Definition sample_frame (rs : list Row) : DataFrame :=
  {| columns := sample_columns; rows := rs |}.

(** [load_data] under the default configuration. *)
Definition sample_load (raw : DataFrame) : LoadResult :=
  load_data default_CSV_PATH default_PHONE_COL default_CONTRACT_COL
    default_DEFAULT_FIELDS (Frame raw).

Definition empty_store : Store :=
  {| df := {| columns := []; rows := [] |}; phone_idx := ∅; contract_idx := ∅ |}.

Definition sample_store (raw : DataFrame) : Store :=
  match sample_load raw with
  | Loaded st => st
  | RuntimeError _ => empty_store
  end.

(** One customer whose [num_contact_tec] cell is blank. *)
Definition blank_tec_frame : DataFrame :=
  sample_frame [sample_row "0039 347-1234567" "C1" ""].

(** Two customers; the second has no contract code. *)
Definition blank_contract_frame : DataFrame :=
  sample_frame [sample_row "3471234567" "C1" "2"; sample_row "+39 02 555" "" "4"].

(** One customer whose [num_contact_tec] cell is not a number. *)
Definition unparsable_tec_frame : DataFrame :=
  sample_frame [sample_row "3471234567" "C1" "n/a"].

(** Fifty customers with the same raw phone value. *)
Definition fifty_rows_frame : DataFrame :=
  sample_frame (replicate 50 (sample_row "3471234567" "C1" "2")).

(** Three customers, the first and the last sharing phone and contract. *)
Definition duplicate_frame : DataFrame :=
  sample_frame [sample_row "3471234567" "C1" "2"; sample_row "02555" "C2" "0";
                sample_row "347-1234567" "C1" "7"].

(** The first customer of [blank_contract_frame], as stored. *)
Definition first_customer : Row := sample_row "+3471234567" "C1" "2".

Definition blank_tec_store : Store := sample_store blank_tec_frame.
Definition unparsable_tec_store : Store := sample_store unparsable_tec_frame.
Definition blank_contract_store : Store := sample_store blank_contract_frame.
Definition fifty_rows_store : Store := sample_store fifty_rows_frame.
Definition duplicate_store : Store := sample_store duplicate_frame.

(** *** Auxiliary notions for the further properties *)

(** [c in s] for a one-character [c]. *)
Fixpoint str_contains (c : ascii) (s : string) : bool :=
  match s with
  | EmptyString => false
  | String d s' => Ascii.eqb d c || str_contains c s'
  end.

(** A string of decimal digits only. *)
Fixpoint only_digits (s : string) : bool :=
  match s with
  | EmptyString => true
  | String c s' => PyStr.isdigit c && only_digits s'
  end.

(** [d[k] = v] on a dict in insertion order, for any type of values. *)
Fixpoint odict_set {V : Type} (d : list (string * V)) (k : string) (v : V)
  : list (string * V) :=
  match d with
  | [] => [(k, v)]
  | (k', v') :: d' =>
      if String.eqb k' k then (k', v) :: d' else (k', v') :: odict_set d' k v
  end.

(** [{val: idx for idx, val in enumerate(vals)}] with the dict's iteration
    order kept: the same comprehension as [build_index], filling an
    association list in insertion order. *)
Definition build_index_ordered (vals : list string) : list (string * nat) :=
  foldl (fun d iv => odict_set d iv.2 iv.1) [] (imap pair vals).

(** [list(phone_idx.keys())[:20]], the body of [list_phones]; [phone_idx]
    is the dict that [load_data] built from the phone column of [df]. *)
Definition list_phones (PHONE_COL : string) (st : Store) : list string :=
  take 20 (build_index_ordered (df_column (df st) PHONE_COL)).*1.

(** The table is rectangular: every row has a cell for every column. *)
Definition rectangular (d : DataFrame) : Prop :=
  Forall (fun r : Row => forall col, col ∈ columns d -> is_Some (r !! col)) (rows d).

(* ================================================================== *)
(** ** Properties of the phone normaliser *)
(* ================================================================== *)

Section Normalizer.

(** A character of the class is neither white space, nor a blank, nor a
    hyphen, nor a newline. *)
Lemma phone_char_plain c :
  phone_char c = true ->
  PyStr.isspace c = false /\ Ascii.eqb c " "%char = false /\
  Ascii.eqb c "-"%char = false /\ Ascii.eqb c PyStr.LF = false.
Proof.
  destruct c as [[] [] [] [] [] [] [] []]; vm_compute; intros H;
    first [ discriminate H | repeat split; reflexivity ].
Qed.

Lemma lstrip_phone_chars s :
  only_phone_chars s = true -> PyStr.lstrip_by PyStr.isspace s = s.
Proof.
  destruct s as [|c s]; simpl; [reflexivity|].
  intros H. apply andb_true_iff in H as [Hc _].
  apply phone_char_plain in Hc as [-> _]. reflexivity.
Qed.

Lemma rstrip_phone_chars s :
  only_phone_chars s = true -> PyStr.rstrip_by PyStr.isspace s = s.
Proof.
  induction s as [|c s IH]; simpl; [reflexivity|].
  intros H. apply andb_true_iff in H as [Hc Hs].
  rewrite (IH Hs). apply phone_char_plain in Hc as [-> _].
  destruct s; reflexivity.
Qed.

Lemma rstrip_cons_nonspace p c s :
  p c = false ->
  PyStr.rstrip_by p (String c s) = String c (PyStr.rstrip_by p s).
Proof.
  intros H. simpl. destruct (PyStr.rstrip_by p s); rewrite ?H; reflexivity.
Qed.

Lemma remove_char_phone_chars d s :
  (forall c, phone_char c = true -> Ascii.eqb c d = false) ->
  only_phone_chars s = true -> PyStr.remove_char d s = s.
Proof.
  intros Hd. induction s as [|c s IH]; simpl; [reflexivity|].
  intros H. apply andb_true_iff in H as [Hc Hs].
  rewrite (Hd c Hc), (IH Hs). reflexivity.
Qed.

(** Cleaning leaves a string of digits and plus signs alone. *)
Lemma clean_phone_chars s : only_phone_chars s = true -> clean_phone s = s.
Proof.
  intros H. unfold clean_phone, PyStr.strip.
  rewrite (lstrip_phone_chars s H), (rstrip_phone_chars s H).
  rewrite (remove_char_phone_chars " "%char s), (remove_char_phone_chars "-"%char s);
    auto; intros c Hc; apply phone_char_plain in Hc; tauto.
Qed.

(** What the tail of the regex accepts: the run, with or without one
    final newline; stripping the right end gives the run back. *)
Lemma phone_tail_match_rstrip s :
  phone_tail_match s = true ->
  exists r, only_phone_chars r = true /\ PyStr.rstrip_by PyStr.isspace s = r /\
            (s = r \/ s = r +:+ String PyStr.LF EmptyString).
Proof.
  induction s as [|c s IH]; simpl.
  - exists EmptyString. auto.
  - destruct (phone_char c) eqn:Hc.
    + intros H. destruct (IH H) as (r & Hr & Hs & Hshape).
      exists (String c r). simpl. rewrite Hc, Hr, Hs.
      apply phone_char_plain in Hc as [-> _].
      repeat split; [destruct r; reflexivity|].
      destruct Hshape as [-> | ->]; [left | right]; reflexivity.
    + intros H. apply andb_true_iff in H as [Hlf He].
      apply Ascii.eqb_eq in Hlf. apply String.eqb_eq in He. subst.
      exists EmptyString. simpl. auto.
Qed.

Lemma only_phone_chars_tail s :
  only_phone_chars s = true -> phone_tail_match s = true.
Proof.
  induction s as [|c s IH]; simpl; [reflexivity|].
  intros H. apply andb_true_iff in H as [-> Hs]. auto.
Qed.

(** Every string of the specification's pattern matches the regex. *)
Lemma spec_pattern_regex s :
  spec_pattern s = true -> PHONE_REGEX_match s = true.
Proof.
  unfold spec_pattern. destruct s as [|c s]; simpl; [discriminate|].
  intros H. apply andb_true_iff in H as [-> Hs].
  simpl. apply only_phone_chars_tail, Hs.
Qed.

(** The regex accepts the pattern of the specification and, besides, the
    same strings followed by one newline. *)
Lemma PHONE_REGEX_match_shape s :
  PHONE_REGEX_match s = true <->
  spec_pattern s = true \/
  exists r, spec_pattern r = true /\ s = r +:+ String PyStr.LF EmptyString.
Proof.
  split.
  - destruct s as [|c s]; simpl; [discriminate|].
    intros H. apply andb_true_iff in H as [Hc Ht].
    destruct (phone_tail_match_rstrip s Ht) as (r & Hr & _ & [-> | ->]).
    + left. unfold spec_pattern. simpl. rewrite Hc, Hr. reflexivity.
    + right. exists (String c r). unfold spec_pattern. simpl.
      rewrite Hc, Hr. auto.
  - intros [H | (r & Hr & ->)]; [apply spec_pattern_regex, H|].
    unfold spec_pattern in Hr. destruct r as [|c r]; simpl in *; [discriminate|].
    apply andb_true_iff in Hr as [-> Hr]. simpl. clear c.
    induction r as [|c r IH]; simpl in *; [reflexivity|].
    apply andb_true_iff in Hr as [-> Hr]. auto.
Qed.

(** An input that matches the regex is cleaned to a non-empty string of
    digits and plus signs. *)
Lemma clean_phone_of_match x :
  PHONE_REGEX_match x = true -> spec_pattern (clean_phone x) = true.
Proof.
  destruct x as [|c s]; simpl; [discriminate|].
  intros H. apply andb_true_iff in H as [Hc Ht].
  destruct (phone_tail_match_rstrip s Ht) as (r & Hr & Hs & _).
  assert (Hy : only_phone_chars (String c r) = true)
    by (simpl; rewrite Hc, Hr; reflexivity).
  assert (Hstrip : PyStr.strip (String c s) = String c r).
  { destruct (phone_char_plain c Hc) as [Hsp _].
    unfold PyStr.strip. cbn [PyStr.lstrip_by]. rewrite Hsp.
    rewrite (rstrip_cons_nonspace _ c s Hsp), Hs. reflexivity. }
  unfold clean_phone. rewrite Hstrip.
  rewrite (remove_char_phone_chars " "%char), (remove_char_phone_chars "-"%char);
    auto; try (intros d Hd; apply phone_char_plain in Hd; tauto).
Qed.

Lemma only_phone_chars_drop n s :
  only_phone_chars s = true -> only_phone_chars (PyStr.drop n s) = true.
Proof.
  revert s. induction n as [|n IH]; intros [|c s]; simpl; auto.
  intros H. apply andb_true_iff in H as [_ Hs]. auto.
Qed.

(** A string of digits and plus signs that starts with a plus sign is a
    fixed point of the normaliser. *)
Lemma normalize_phone_plus w :
  only_phone_chars w = true ->
  normalize_phone (String "+" w) = String "+" w.
Proof.
  intros Hw.
  assert (Hy : only_phone_chars (String "+" w) = true) by (simpl; exact Hw).
  unfold normalize_phone. rewrite (clean_phone_chars _ Hy).
  cbn [PHONE_REGEX_match]. rewrite (only_phone_chars_tail _ Hw).
  replace (phone_char "+") with true by reflexivity.
  unfold PyStr.startswith. simpl. destruct w; reflexivity.
Qed.

(** On a matching input the result is a plus sign followed by digits and
    plus signs. *)
Lemma normalize_phone_of_match x :
  PHONE_REGEX_match x = true ->
  exists w, only_phone_chars w = true /\ normalize_phone x = String "+" w.
Proof.
  intros Hx. pose proof (clean_phone_of_match x Hx) as Hy.
  unfold normalize_phone. rewrite (spec_pattern_regex _ Hy). simpl negb. cbv iota.
  generalize dependent (clean_phone x). intros y Hy.
  unfold spec_pattern in Hy. apply andb_true_iff in Hy as [_ Hy].
  destruct (PyStr.startswith y "00") eqn:H00.
  { exists (PyStr.drop 2 y). split; [apply only_phone_chars_drop, Hy | reflexivity]. }
  destruct (PyStr.startswith y "+") eqn:Hp.
  { unfold PyStr.startswith in Hp.
    destruct y as [|c y']; cbn [String.prefix] in Hp; [discriminate Hp|].
    destruct (ascii_dec "+" c) as [<-|]; [|discriminate Hp].
    exists y'. split; [exact Hy | reflexivity]. }
  destruct (PyStr.startswith y "39"); exists y; split; auto.
Qed.

Lemma ends_with_LF_app r :
  ends_with_LF (r +:+ String PyStr.LF EmptyString) = true.
Proof.
  induction r as [|c r IH]; [reflexivity|].
  change (String c r +:+ String PyStr.LF EmptyString)
    with (String c (r +:+ String PyStr.LF EmptyString)).
  cbn [ends_with_LF]. rewrite IH.
  destruct (r +:+ String PyStr.LF EmptyString) eqn:E; [|reflexivity].
  destruct r; discriminate E.
Qed.

(** Away from a final newline the regex and the specification's pattern
    accept the same strings. *)
Lemma PHONE_REGEX_match_spec_pattern s :
  ends_with_LF s = false -> PHONE_REGEX_match s = spec_pattern s.
Proof.
  intros Hlf. destruct (PHONE_REGEX_match s) eqn:Hm.
  - apply PHONE_REGEX_match_shape in Hm as [H | (r & _ & ->)]; [auto|].
    rewrite ends_with_LF_app in Hlf. discriminate Hlf.
  - destruct (spec_pattern s) eqn:Hs; [|reflexivity].
    apply spec_pattern_regex in Hs. congruence.
Qed.

(** The code and section 4.1 agree on every input whose cleaned form does
    not end in a newline. *)
Lemma normalize_phone_agrees_with_spec x :
  ends_with_LF (clean_phone x) = false -> normalize_phone x = normalize_spec x.
Proof.
  intros H. unfold normalize_phone, normalize_spec.
  rewrite (PHONE_REGEX_match_spec_pattern _ H). reflexivity.
Qed.

(** The worked examples of section 8. *)
Lemma normalize_phone_examples :
  normalize_phone "003471234567" = "+3471234567" /\
  normalize_phone "+391234567" = "+391234567" /\
  normalize_phone "391234567" = "+391234567" /\
  normalize_phone "abc123" = "abc123".
Proof. repeat split; reflexivity. Qed.

(** C4. [normalize_phone] is idempotent on every input that matches the
    digit/plus pattern [PHONE_REGEX] (every non-empty string of digits and
    plus signs does, see [spec_pattern_regex]): normalising the result
    again changes nothing. *)
Theorem normalize_phone_idempotent x :
  PHONE_REGEX_match x = true ->
  normalize_phone (normalize_phone x) = normalize_phone x.
Proof.
  intros Hx. destruct (normalize_phone_of_match x Hx) as (w & Hw & ->).
  apply normalize_phone_plus, Hw.
Qed.

(** C5 (the code departs from the claim). The input '1','2',newline,'-'
    is cleaned to '1','2',newline, which is not made of digits and plus
    signs only; the claim has it returned unchanged, as [normalize_spec]
    does, but [$] accepts the final newline and the code prepends a plus
    sign. *)
Theorem normalize_phone_trailing_newline :
  clean_phone newline_hyphen_input = String "1" (String "2" (String PyStr.LF "")) /\
  spec_pattern (clean_phone newline_hyphen_input) = false /\
  PHONE_REGEX_match (clean_phone newline_hyphen_input) = true /\
  normalize_spec newline_hyphen_input = String "1" (String "2" (String PyStr.LF "")) /\
  normalize_phone newline_hyphen_input
    = String "+" (String "1" (String "2" (String PyStr.LF ""))).
Proof. repeat split; reflexivity. Qed.

End Normalizer.

Lemma normalize_phone_idempotent_witness :
  PHONE_REGEX_match "003471234567" = true /\
  normalize_phone (normalize_phone "003471234567") = normalize_phone "003471234567".
Proof.
  split; [reflexivity | apply (normalize_phone_idempotent "003471234567"); reflexivity].
Defined.

(* ================================================================== *)
(** ** Index building *)
(* ================================================================== *)

Section Index.

Lemma build_index_snoc (vals : list string) (v : string) :
  build_index (vals ++ [v])%list = <[v := List.length vals]> (build_index vals).
Proof.
  unfold build_index. rewrite imap_app, foldl_app. simpl.
  rewrite Nat.add_0_r. reflexivity.
Qed.

(** Last wins: the index sends a key to the last position that holds it. *)
Lemma build_index_lookup (vals : list string) (k : string) (i : nat) :
  build_index vals !! k = Some i <->
  vals !! i = Some k /\ forall j, (i < j)%nat -> vals !! j <> Some k.
Proof.
  revert i. induction vals as [|v vals IH] using rev_ind; intros i.
  - unfold build_index. simpl. rewrite lookup_empty. split; [discriminate|].
    intros [H _]. discriminate H.
  - rewrite build_index_snoc, lookup_insert. destruct (decide (v = k)) as [->|Hne].
    + split.
      * intros [= <-]. split.
        -- rewrite lookup_app_r, Nat.sub_diag by lia. reflexivity.
        -- intros j Hj. rewrite lookup_ge_None_2; [discriminate|].
           rewrite length_app. simpl. lia.
      * intros [Hi Hlast]. f_equal.
        destruct (Nat.lt_trichotomy i (List.length vals)) as [Hlt | [Heq | Hgt]]; [|auto|].
        -- exfalso. apply (Hlast (List.length vals) Hlt).
           rewrite lookup_app_r, Nat.sub_diag by lia. reflexivity.
        -- rewrite lookup_ge_None_2 in Hi; [discriminate|].
           rewrite length_app. simpl. lia.
    + rewrite IH. split.
      * intros [Hi Hlast]. split.
        -- rewrite lookup_app_l; [exact Hi|]. eapply lookup_lt_Some, Hi.
        -- intros j Hj. destruct (decide (j < List.length vals)%nat) as [Hlt|Hge].
           ++ rewrite lookup_app_l by exact Hlt. auto.
           ++ rewrite lookup_app_r by lia.
              destruct (j - List.length vals)%nat as [|n]; simpl; [congruence|].
              rewrite lookup_nil. discriminate.
      * intros [Hi Hlast].
        assert (Hlt : (i < List.length vals)%nat).
        { destruct (decide (i < List.length vals)%nat) as [|Hge]; [assumption|].
          exfalso. rewrite lookup_app_r in Hi by lia.
          destruct (i - List.length vals)%nat as [|n]; simpl in Hi; [congruence|].
          rewrite lookup_nil in Hi. discriminate. }
        rewrite lookup_app_l in Hi by exact Hlt. split; [exact Hi|].
        intros j Hj Hk. apply (Hlast j Hj).
        rewrite lookup_app_l; [exact Hk|]. eapply lookup_lt_Some, Hk.
Qed.

(** Every position an index holds is a position of the indexed column. *)
Lemma build_index_bound (vals : list string) (k : string) (i : nat) :
  build_index vals !! k = Some i -> (i < List.length vals)%nat.
Proof.
  intros H. apply build_index_lookup in H as [H _].
  eapply lookup_lt_Some, H.
Qed.

End Index.

(* ================================================================== *)
(** ** Loading the store *)
(* ================================================================== *)

(** Unfolding the loader and the patch at their outermost definition. *)
Ltac unfold_load_data H := cbv beta iota zeta delta [load_data] in H.
Ltac unfold_patch_row := unfold patch_row.

Section Load.

Variable CSV_PATH : string.
Variable PHONE_COL : string.
Variable CONTRACT_COL : string.
Variable DEFAULT_FIELDS : list string.

Local Abbreviation load_data :=
  (load_data CSV_PATH PHONE_COL CONTRACT_COL DEFAULT_FIELDS).
Local Abbreviation patch_row := (patch_row PHONE_COL CONTRACT_COL).

(** [df.loc[i, ...] = ...] is only reached for a row that exists; in the
    model an update past the end changes nothing. *)
Lemma alter_past_end {A} (f : A -> A) (l : list A) (i : nat) :
  (List.length l <= i)%nat -> alter f i l = l.
Proof.
  intros Hi. apply list_eq. intros j. destruct (decide (i = j)) as [<-|Hne].
  - rewrite list_lookup_alter_eq, (lookup_ge_None_2 l i Hi). reflexivity.
  - apply list_lookup_alter_ne, Hne.
Qed.

(** The phone column after [apply]. *)
Local Abbreviation normalized_rows raw :=
  ((fun r : Row => <[PHONE_COL := normalize_phone (cell r PHONE_COL)]> r) <$> rows raw).

(** A successful load read a frame that has the phone column; the store
    holds the normalised rows with row 49 patched, and the two indices
    built from its columns. *)
Lemma load_data_Loaded src st :
  load_data src = Loaded st ->
  exists raw,
    src = Frame raw /\
    rows (df st) = alter patch_row 49%nat (normalized_rows raw) /\
    phone_idx st = build_index (df_column (df st) PHONE_COL) /\
    contract_idx st = build_index (df_column (df st) CONTRACT_COL).
Proof.
  destruct src as [| | msg | raw]; try discriminate.
  intros H. exists raw. split; [reflexivity|].
  unfold_load_data H.
  destruct (List.filter _ _) eqn:Hmiss in H; [|discriminate H].
  injection H as <-. cbn [df phone_idx contract_idx].
  destruct (bool_decide (PHONE_COL ∈ columns raw)) eqn:Hcol.
  - destruct (49 <? _)%nat eqn:Hlen; cbn [rows df_apply]; [auto|].
    apply Nat.ltb_ge in Hlen. cbn [rows df_apply] in Hlen.
    repeat split. symmetry. apply alter_past_end. exact Hlen.
  - exfalso. cbn [List.filter app] in Hmiss. rewrite Hcol in Hmiss.
    cbn [negb] in Hmiss. discriminate Hmiss.
Qed.

Lemma load_data_length src raw st :
  load_data src = Loaded st -> src = Frame raw ->
  List.length (rows (df st)) = List.length (rows raw).
Proof.
  intros H ->. apply load_data_Loaded in H as (raw' & [= <-] & -> & _).
  rewrite length_alter, length_fmap. reflexivity.
Qed.

Lemma df_column_lookup d col (i : nat) :
  df_column d col !! i = (fun r => cell r col) <$> (rows d !! i).
Proof. unfold df_column. apply list_lookup_fmap. Qed.

Lemma df_column_length d col : List.length (df_column d col) = List.length (rows d).
Proof. unfold df_column. apply length_fmap. Qed.

Lemma cell_insert (r : Row) col v : cell (<[col := v]> r) col = v.
Proof. unfold cell. rewrite lookup_insert_eq. reflexivity. Qed.

(** The positions held by the indices of a loaded store are row positions. *)
Lemma loaded_positions src st k i :
  load_data src = Loaded st ->
  phone_idx st !! k = Some i \/ contract_idx st !! k = Some i ->
  (i < List.length (rows (df st)))%nat.
Proof.
  intros H Hk. apply load_data_Loaded in H as (raw & _ & _ & Hp & Hc).
  rewrite Hp, Hc in Hk.
  destruct Hk as [Hk | Hk]; apply build_index_bound in Hk;
    rewrite df_column_length in Hk; exact Hk.
Qed.

(** C2 (amended). In a loaded store every row other than row 49 holds, in
    the phone column, [normalize_phone] of the raw cell; row 49, when the
    store has more than 49 rows, holds the literal of the patch,
    [+393478933194], whatever its raw cell was (the phone and contract
    columns being distinct). *)
Theorem load_data_phone_column raw st :
  load_data (Frame raw) = Loaded st ->
  (forall i : nat, i <> 49%nat ->
     df_column (df st) PHONE_COL !! i
     = normalize_phone <$> (df_column raw PHONE_COL !! i)) /\
  (PHONE_COL <> CONTRACT_COL -> (49 < List.length (rows raw))%nat ->
     df_column (df st) PHONE_COL !! 49%nat = Some "+393478933194").
Proof.
  intros H. apply load_data_Loaded in H as (raw' & [= <-] & Hrows & _).
  split.
  - intros i Hi. rewrite !df_column_lookup, Hrows.
    rewrite list_lookup_alter_ne by congruence.
    rewrite list_lookup_fmap. destruct (rows raw !! i) as [r|]; simpl; [|reflexivity].
    rewrite cell_insert. reflexivity.
  - intros _ Hlen. rewrite df_column_lookup, Hrows.
    rewrite list_lookup_alter_eq, list_lookup_fmap.
    destruct (lookup_lt_is_Some_2 (rows raw) 49%nat Hlen) as [r ->]. simpl.
    unfold_patch_row. rewrite cell_insert. reflexivity.
Qed.


(** C9. Every position stored in the Phone Index or the Contract Index of
    a loaded store is a row position of that store, so [df.loc] on it
    finds a record. *)
Theorem load_data_index_positions_valid src st k (i : nat) :
  load_data src = Loaded st ->
  phone_idx st !! k = Some i \/ contract_idx st !! k = Some i ->
  (0 <= i < List.length (rows (df st)))%nat /\ is_Some (df_loc (df st) i).
Proof.
  intros H Hk. pose proof (loaded_positions src st k i H Hk) as Hlt.
  split; [lia|]. unfold df_loc. apply lookup_lt_is_Some_2, Hlt.
Qed.

End Load.

(* ================================================================== *)
(** ** The request handlers *)
(* ================================================================== *)

(** Unfolding a handler down to its key lookup. *)
Ltac unfold_handler :=
  cbv beta zeta delta
    [get_by_phone get_by_contract get_num_tec get_num_amm get_wifi_active
     get_user_name get_num_tec_by_phone get_num_amm_by_phone
     get_wifi_active_by_phone get_user_name_by_phone].

Section Handlers.

Variable CSV_PATH : string.
Variable PHONE_COL : string.
Variable CONTRACT_COL : string.
Variable DEFAULT_FIELDS : list string.
Variable int_max_str_digits : nat.

Local Abbreviation load_data :=
  (load_data CSV_PATH PHONE_COL CONTRACT_COL DEFAULT_FIELDS).
Local Abbreviation get_by_phone := (get_by_phone DEFAULT_FIELDS).
Local Abbreviation get_by_contract := (get_by_contract DEFAULT_FIELDS).
Local Abbreviation wanted_fields := (wanted_fields DEFAULT_FIELDS).
Local Abbreviation get_num_tec := (get_num_tec int_max_str_digits).
Local Abbreviation get_num_amm := (get_num_amm int_max_str_digits).
Local Abbreviation get_wifi_active := (get_wifi_active int_max_str_digits).
Local Abbreviation get_num_tec_by_phone := (get_num_tec_by_phone int_max_str_digits).
Local Abbreviation get_num_amm_by_phone := (get_num_amm_by_phone int_max_str_digits).
Local Abbreviation get_wifi_active_by_phone :=
  (get_wifi_active_by_phone int_max_str_digits).

(** Past the key checks a handler answers 200 or its own 500. *)
Lemma try_except_status body description :
  status (try_except body description) = 200%nat \/
  status (try_except body description) = InternalError.
Proof. destruct body; simpl; auto. Qed.

Lemma try_except_not_NotFound body description :
  status (try_except body description) <> NotFound.
Proof. destruct body; simpl; discriminate. Qed.

Lemma try_except_not_BadRequest body description :
  status (try_except body description) <> BadRequest.
Proof. destruct body; simpl; discriminate. Qed.

Lemma failure_no_data r : status r <> 200%nat -> response_data r = None.
Proof. destruct r; simpl; [congruence | reflexivity]. Qed.

(** A handler of the shape "404 unless the key is in the index". *)
Ltac not_found_iff :=
  match goal with
  | |- context [?m !! ?k] =>
      destruct (m !! k) eqn:?; split; intros Hnf;
      first [ reflexivity | discriminate Hnf
            | exfalso; exact (try_except_not_NotFound _ _ Hnf) ]
  end.

(** The numeric accessors, once the key has resolved to a record. *)
Ltac numeric_outcome Hidx Hrec :=
  unfold_handler; rewrite Hidx, Hrec;
  unfold numeric_accessor_contract, series_get; simpl;
  split; [| split ];
  [ intros ->; reflexivity
  | intros s n -> Hs; simpl; rewrite Hs; reflexivity
  | intros s -> Hs; simpl; rewrite Hs; split; reflexivity ].

(** C1 (amended). For a record resolved by contract code or by phone, each
    numeric accessor answers 0 when the field is absent from the record and
    the parsed integer when [int] accepts the stored string; when [int]
    rejects the stored string, the empty string included, the accessor
    answers its internal error (500) and no data. *)
Theorem numeric_accessors st code phone (i j : nat) rec rec' :
  contract_idx st !! code = Some i -> df_loc (df st) i = Some rec ->
  phone_idx st !! normalize_phone phone = Some j -> df_loc (df st) j = Some rec' ->
  numeric_accessor_contract int_max_str_digits
    (get_num_tec st code) rec "num_contact_tec" /\
  numeric_accessor_contract int_max_str_digits
    (get_num_amm st code) rec "num_contact_amm" /\
  numeric_accessor_contract int_max_str_digits
    (get_wifi_active st code) rec "bb_active" /\
  numeric_accessor_contract int_max_str_digits
    (get_num_tec_by_phone st phone) rec' "num_contact_tec" /\
  numeric_accessor_contract int_max_str_digits
    (get_num_amm_by_phone st phone) rec' "num_contact_amm" /\
  numeric_accessor_contract int_max_str_digits
    (get_wifi_active_by_phone st phone) rec' "bb_active" /\
  PyInt.of_str int_max_str_digits "" = None.
Proof.
  intros Hc Hrec Hp Hrec'.
  split; [numeric_outcome Hc Hrec|].
  split; [numeric_outcome Hc Hrec|].
  split; [numeric_outcome Hc Hrec|].
  split; [numeric_outcome Hp Hrec'|].
  split; [numeric_outcome Hp Hrec'|].
  split; [numeric_outcome Hp Hrec'|].
  reflexivity.
Qed.

(** C3 (amended). The phone-keyed accessors normalise the raw phone and
    fail NotFound exactly when the normalised value is absent from the Phone
    Index; the contract-keyed accessors fail NotFound exactly when the code
    is absent from the Contract Index and never fail BadRequest: they have
    no empty-code check, an empty code is looked up like any other. *)
Theorem accessor_key_resolution st phone code :
  Forall (fun r => status r = NotFound <->
                   phone_idx st !! normalize_phone phone = None)
    [get_num_tec_by_phone st phone; get_num_amm_by_phone st phone;
     get_wifi_active_by_phone st phone; get_user_name_by_phone st phone] /\
  Forall (fun r => (status r = NotFound <-> contract_idx st !! code = None) /\
                   status r <> BadRequest)
    [get_num_tec st code; get_num_amm st code;
     get_wifi_active st code; get_user_name st code].
Proof.
  split.
  - repeat apply List.Forall_cons; try apply List.Forall_nil;
      unfold_handler; not_found_iff.
  - repeat apply List.Forall_cons; try apply List.Forall_nil;
      unfold_handler; (split; [not_found_iff|]);
      destruct (contract_idx st !! code);
      first [ apply try_except_not_BadRequest | discriminate ].
Qed.

(** C7. [get_by_phone] normalises the raw phone first and fails NotFound
    exactly when the normalised value is absent from the Phone Index;
    [get_by_contract] fails BadRequest exactly when the code is empty and,
    for a non-empty code, NotFound exactly when the code is absent from the
    Contract Index; a response that is not a success carries no record
    data. *)
Theorem generic_lookup_failures st phone code fields :
  (status (get_by_phone st phone fields) = NotFound <->
   phone_idx st !! normalize_phone phone = None) /\
  (status (get_by_contract st code fields) = BadRequest <-> code = "") /\
  (code <> "" ->
   (status (get_by_contract st code fields) = NotFound <->
    contract_idx st !! code = None)) /\
  (status (get_by_phone st phone fields) <> 200%nat ->
   response_data (get_by_phone st phone fields) = None) /\
  (status (get_by_contract st code fields) <> 200%nat ->
   response_data (get_by_contract st code fields) = None).
Proof.
  split; [| split; [| split; [| split ]]]; try apply failure_no_data.
  - unfold_handler. not_found_iff.
  - unfold_handler.
    destruct (String.eqb_spec code ""); [tauto|]. split; [|tauto].
    destruct (contract_idx st !! code); intros H;
      [ exfalso; exact (try_except_not_BadRequest _ _ H) | discriminate H ].
  - intros Hne. unfold_handler.
    destruct (String.eqb_spec code ""); [contradiction|]. not_found_iff.
Qed.

(** C8 (amended). In a loaded store, when a phone and a non-empty contract
    code resolve to the same row position, [get_by_phone] and
    [get_by_contract] give the same response for the same [fields]
    selector: the projection of that row. *)
Theorem lookups_agree_on_same_row src st phone code fields (i : nat) :
  load_data src = Loaded st ->
  code <> "" ->
  phone_idx st !! normalize_phone phone = Some i ->
  contract_idx st !! code = Some i ->
  get_by_phone st phone fields = get_by_contract st code fields /\
  exists rec, df_loc (df st) i = Some rec /\
    get_by_phone st phone fields
    = Ok (JObj [("data", json_of_dict (slice_row rec (wanted_fields fields)))]).
Proof.
  intros Hload Hne Hp Hc.
  assert (Hrow : is_Some (df_loc (df st) i)).
  { unfold df_loc. apply lookup_lt_is_Some_2.
    eapply loaded_positions; [exact Hload | left; exact Hp]. }
  destruct Hrow as [rec Hrec].
  unfold_handler.
  destruct (String.eqb_spec code ""); [contradiction|].
  cbv zeta. rewrite Hp, Hc, Hrec. simpl. eauto.
Qed.

(** C10. A [fields] parameter that is present but empty selects the
    configured default field list, exactly as an absent parameter does, in
    both generic lookups; it does not select the empty name that
    [split] would give. *)
Theorem empty_fields_selector_defaults st phone code :
  wanted_fields (Some "") = DEFAULT_FIELDS /\
  wanted_fields None = DEFAULT_FIELDS /\
  PyStr.split ","%char "" = [""] /\
  get_by_phone st phone (Some "") = get_by_phone st phone None /\
  get_by_contract st code (Some "") = get_by_contract st code None /\
  (forall (i : nat) rec,
     phone_idx st !! normalize_phone phone = Some i ->
     df_loc (df st) i = Some rec ->
     get_by_phone st phone (Some "")
     = Ok (JObj [("data", json_of_dict (slice_row rec DEFAULT_FIELDS))])) /\
  (forall (i : nat) rec,
     code <> "" ->
     contract_idx st !! code = Some i ->
     df_loc (df st) i = Some rec ->
     get_by_contract st code (Some "")
     = Ok (JObj [("data", json_of_dict (slice_row rec DEFAULT_FIELDS))])).
Proof.
  repeat (split; [reflexivity|]). split.
  - intros i rec Hp Hrec. unfold_handler.
    cbv zeta. rewrite Hp, Hrec. reflexivity.
  - intros i rec Hne Hc Hrec. unfold_handler.
    destruct (String.eqb_spec code ""); [contradiction|].
    rewrite Hc, Hrec. reflexivity.
Qed.

End Handlers.

(* ================================================================== *)
(** ** Worked instances under the default configuration *)
(* ================================================================== *)

Lemma numeric_accessors_witness :
  numeric_accessor_contract 4300
    (get_num_tec 4300 blank_contract_store "C1") first_customer "num_contact_tec" /\
  numeric_accessor_contract 4300
    (get_num_amm 4300 blank_contract_store "C1") first_customer "num_contact_amm" /\
  numeric_accessor_contract 4300
    (get_wifi_active 4300 blank_contract_store "C1") first_customer "bb_active" /\
  numeric_accessor_contract 4300
    (get_num_tec_by_phone 4300 blank_contract_store "347 123-4567")
    first_customer "num_contact_tec" /\
  numeric_accessor_contract 4300
    (get_num_amm_by_phone 4300 blank_contract_store "347 123-4567")
    first_customer "num_contact_amm" /\
  numeric_accessor_contract 4300
    (get_wifi_active_by_phone 4300 blank_contract_store "347 123-4567")
    first_customer "bb_active" /\
  PyInt.of_str 4300 "" = None.
Proof.
  apply (numeric_accessors 4300 blank_contract_store "C1" "347 123-4567" 0 0
           first_customer first_customer);
    vm_compute; reflexivity.
Defined.

(** What the contract gives on that record: the parsed cell, and 0 for the
    absent [num_contact_amm] column. *)
Example numeric_accessors_values :
  get_num_tec 4300 blank_contract_store "C1" = Ok (JObj [("num_contact_tec", JInt 2)]) /\
  get_num_amm 4300 blank_contract_store "C1" = Ok (JObj [("num_contact_amm", JInt 0)]) /\
  get_wifi_active_by_phone 4300 blank_contract_store "347 123-4567"
    = Ok (JObj [("bb_active", JInt 0)]).
Proof. repeat split; vm_compute; reflexivity. Qed.

(** C1 as claimed fails: a blank or non-numeric [num_contact_tec] cell makes
    the accessors answer 500, not 0. *)
Lemma numeric_accessor_blank_counterexample :
  (fun r => cell r "num_contact_tec") <$> df_loc (df blank_tec_store) 0
    = Some "" /\
  get_num_tec 4300 blank_tec_store "C1"
    = Abort 500 "Internal error retrieving numTec" /\
  get_num_tec_by_phone 4300 blank_tec_store "+393471234567"
    = Abort 500 "Internal error retrieving numTec" /\
  (fun r => cell r "num_contact_tec") <$> df_loc (df unparsable_tec_store) 0
    = Some "n/a" /\
  get_num_tec 4300 unparsable_tec_store "C1"
    = Abort 500 "Internal error retrieving numTec".
Proof. repeat split; vm_compute; reflexivity. Qed.

Lemma load_data_phone_column_witness :
  sample_load fifty_rows_frame = Loaded fifty_rows_store /\
  ((forall i : nat, i <> 49%nat ->
      df_column (df fifty_rows_store) default_PHONE_COL !! i
      = normalize_phone <$> (df_column fifty_rows_frame default_PHONE_COL !! i)) /\
   (default_PHONE_COL <> default_CONTRACT_COL ->
    (49 < List.length (rows fifty_rows_frame))%nat ->
    df_column (df fifty_rows_store) default_PHONE_COL !! 49%nat
    = Some "+393478933194")).
Proof.
  split; [vm_compute; reflexivity|].
  apply (load_data_phone_column default_CSV_PATH default_PHONE_COL
           default_CONTRACT_COL default_DEFAULT_FIELDS fifty_rows_frame).
  vm_compute; reflexivity.
Defined.

(** C2 as claimed fails at row 49 of a fifty-row store: the raw cell
    normalises to [+3471234567], the store holds the patch literal. *)
Lemma phone_column_patch_counterexample :
  sample_load fifty_rows_frame = Loaded fifty_rows_store /\
  normalize_phone <$> (df_column fifty_rows_frame default_PHONE_COL !! 49%nat)
    = Some "+3471234567" /\
  df_column (df fifty_rows_store) default_PHONE_COL !! 49%nat
    = Some "+393478933194".
Proof. repeat split; vm_compute; reflexivity. Qed.

(** C3 as claimed fails: on an empty code the contract-keyed accessors
    answer 404 when no row has an empty contract code, and the row's value
    when one has; only [get_by_contract] answers 400. *)
Lemma accessor_empty_code_counterexample :
  get_by_contract default_DEFAULT_FIELDS blank_tec_store "" None
    = Abort 400 "Contract code is required" /\
  get_num_tec 4300 blank_tec_store ""
    = Abort 404 "Contract code not found" /\
  get_num_amm 4300 blank_tec_store ""
    = Abort 404 "Contract code not found" /\
  get_wifi_active 4300 blank_tec_store ""
    = Abort 404 "Contract code not found" /\
  get_user_name blank_tec_store ""
    = Abort 404 "Contract code not found" /\
  get_num_tec 4300 blank_contract_store ""
    = Ok (JObj [("num_contact_tec", JInt 4)]).
Proof. repeat split; vm_compute; reflexivity. Qed.


(** The duplicated phone and contract of [duplicate_frame] resolve to the
    last of the rows that share them. *)
Example duplicate_frame_indices :
  map_to_list (phone_idx duplicate_store)
    = [("+3471234567", 2%nat); ("+02555", 1%nat)] /\
  map_to_list (contract_idx duplicate_store)
    = [("C1", 2%nat); ("C2", 1%nat)].
Proof. split; vm_compute; reflexivity. Qed.

Lemma load_data_index_positions_valid_witness :
  (sample_load duplicate_frame = Loaded duplicate_store /\
   (phone_idx duplicate_store !! "+3471234567" = Some 2%nat \/
    contract_idx duplicate_store !! "+3471234567" = Some 2%nat)) /\
  ((0 <= 2 < List.length (rows (df duplicate_store)))%nat /\ is_Some (df_loc (df duplicate_store) 2)).
Proof.
  split; [split; [|left]; vm_compute; reflexivity|].
  apply (load_data_index_positions_valid default_CSV_PATH default_PHONE_COL
           default_CONTRACT_COL default_DEFAULT_FIELDS
           (Frame duplicate_frame) duplicate_store "+3471234567" 2);
    [|left]; vm_compute; reflexivity.
Defined.

Lemma lookups_agree_on_same_row_witness :
  (sample_load blank_contract_frame = Loaded blank_contract_store /\ "C1" <> "" /\
   phone_idx blank_contract_store !! normalize_phone "347 123-4567" = Some 0%nat /\
   contract_idx blank_contract_store !! "C1" = Some 0%nat) /\
  (get_by_phone default_DEFAULT_FIELDS blank_contract_store "347 123-4567" (Some "status,zz,platform")
   = get_by_contract default_DEFAULT_FIELDS blank_contract_store "C1" (Some "status,zz,platform") /\
   exists rec, df_loc (df blank_contract_store) 0 = Some rec /\
     get_by_phone default_DEFAULT_FIELDS blank_contract_store "347 123-4567" (Some "status,zz,platform")
     = Ok (JObj [("data",
                  json_of_dict
                    (slice_row rec
                       (wanted_fields default_DEFAULT_FIELDS
                          (Some "status,zz,platform"))))])).
Proof.
  split; [repeat split; try discriminate; vm_compute; reflexivity|].
  apply (lookups_agree_on_same_row default_CSV_PATH default_PHONE_COL
           default_CONTRACT_COL default_DEFAULT_FIELDS
           (Frame blank_contract_frame) blank_contract_store
           "347 123-4567" "C1" (Some "status,zz,platform") 0);
    try discriminate; vm_compute; reflexivity.
Defined.

(** C8 as claimed fails for the row whose contract code is empty: the
    Contract Index resolves the empty code to it, yet [get_by_contract]
    answers 400 where [get_by_phone] answers the projection. *)
Lemma lookups_empty_contract_counterexample :
  phone_idx blank_contract_store !! normalize_phone "+39 02 555"
    = Some 1%nat /\
  contract_idx blank_contract_store !! "" = Some 1%nat /\
  get_by_phone default_DEFAULT_FIELDS blank_contract_store
    "+39 02 555" (Some "status,platform")
    = Ok (JObj [("data", JObj [("status", JStr "active"); ("platform", JStr "ftth")])]) /\
  get_by_contract default_DEFAULT_FIELDS blank_contract_store
    "" (Some "status,platform")
    = Abort 400 "Contract code is required".
Proof. repeat split; vm_compute; reflexivity. Qed.

(** Section 8, end to end: with three distinct customers and no [fields],
    [get_by_contract] answers the default fields of the row. *)
Example get_by_contract_default_fields :
  get_by_contract default_DEFAULT_FIELDS
    (sample_store
       (sample_frame [sample_row "3471234567" "C1" "2"; sample_row "02555" "C2" "0";
                      sample_row "0039333" "C3" "7"]))
    "C2" None
  = Ok (JObj [("data",
               JObj [("contract_code", JStr "C2"); ("platform", JStr "ftth");
                     ("status", JStr "active"); ("average_arpu", JStr "29.9");
                     ("service_type", JStr "fibra");
                     ("activation_date", JStr "2021-03-01")])]).
Proof. vm_compute; reflexivity. Qed.

(* ================================================================== *)
(** ** Further properties of the phone normaliser *)
(* ================================================================== *)

Section NormalizerMore.

Lemma str_contains_remove_char c s : str_contains c (PyStr.remove_char c s) = false.
Proof.
  induction s as [|d s IH]; simpl; [reflexivity|].
  destruct (Ascii.eqb d c) eqn:E; simpl; rewrite ?E; exact IH.
Qed.

Lemma str_contains_remove_other c d s :
  str_contains c s = false -> str_contains c (PyStr.remove_char d s) = false.
Proof.
  induction s as [|e s IH]; simpl; [reflexivity|].
  intros H. apply orb_false_iff in H as [He Hs].
  destruct (Ascii.eqb e d); simpl; rewrite ?He; auto.
Qed.

Lemma str_contains_drop c n s :
  str_contains c s = false -> str_contains c (PyStr.drop n s) = false.
Proof.
  revert s. induction n as [|n IH]; intros [|d s]; simpl; auto.
  intros H. apply orb_false_iff in H as [_ Hs]. auto.
Qed.

Lemma clean_phone_no_blank_no_hyphen x :
  str_contains " " (clean_phone x) = false /\
  str_contains "-" (clean_phone x) = false.
Proof.
  unfold clean_phone. split.
  - apply str_contains_remove_other, str_contains_remove_char.
  - apply str_contains_remove_char.
Qed.

Lemma str_contains_plus c s :
  Ascii.eqb "+" c = false -> str_contains c ("+" +:+ s) = str_contains c s.
Proof.
  intros H. change ("+" +:+ s) with (String "+" s).
  cbn [str_contains]. rewrite H. reflexivity.
Qed.

(** X1. Whatever the input, the normalised phone holds no blank and no
    hyphen. *)
Theorem normalize_phone_no_blank_no_hyphen x :
  str_contains " " (normalize_phone x) = false /\
  str_contains "-" (normalize_phone x) = false.
Proof.
  destruct (clean_phone_no_blank_no_hyphen x) as [Hb Hh].
  unfold normalize_phone.
  destruct (negb _); [auto|].
  destruct (PyStr.startswith _ "00").
  { split; rewrite str_contains_plus by reflexivity;
      apply str_contains_drop; assumption. }
  destruct (PyStr.startswith _ "+"); [auto|].
  destruct (PyStr.startswith _ "39"); split;
    rewrite str_contains_plus by reflexivity; assumption.
Qed.

Lemma startswith_plus_cons w : PyStr.startswith (String "+" w) "+" = true.
Proof. unfold PyStr.startswith. cbn [String.prefix]. destruct w; reflexivity. Qed.

(** X2. The three spellings of a number give one key: for a string [d] of
    digits and plus signs, [00d] and [+d] both normalise to [+d], and so
    does [d] itself when it is not empty and starts with neither [00] nor
    [+]. *)
Theorem normalize_phone_prefix_forms d :
  only_phone_chars d = true ->
  normalize_phone ("00" +:+ d) = "+" +:+ d /\
  normalize_phone ("+" +:+ d) = "+" +:+ d /\
  (d <> "" -> PyStr.startswith d "00" = false -> PyStr.startswith d "+" = false ->
   normalize_phone d = "+" +:+ d).
Proof.
  intros Hd. split; [|split].
  - assert (H0 : only_phone_chars ("00" +:+ d) = true) by (simpl; exact Hd).
    unfold normalize_phone. rewrite (clean_phone_chars _ H0).
    assert (Hm : PHONE_REGEX_match ("00" +:+ d) = true).
    { apply spec_pattern_regex. unfold spec_pattern. simpl. exact Hd. }
    rewrite Hm. simpl negb. cbv iota.
    replace (PyStr.startswith ("00" +:+ d) "00") with true; [reflexivity|].
    unfold PyStr.startswith. simpl. destruct d; reflexivity.
  - apply (normalize_phone_plus d Hd).
  - intros Hne H00 Hp.
    unfold normalize_phone. rewrite (clean_phone_chars _ Hd).
    assert (Hm : PHONE_REGEX_match d = true).
    { apply spec_pattern_regex. unfold spec_pattern. rewrite Hd.
      destruct d; [contradiction | reflexivity]. }
    rewrite Hm, H00, Hp. simpl. destruct (PyStr.startswith d "39"); reflexivity.
Qed.

End NormalizerMore.

Lemma normalize_phone_prefix_forms_witness :
  only_phone_chars "3471234567" = true /\
  (normalize_phone ("00" +:+ "3471234567") = "+" +:+ "3471234567" /\
   normalize_phone ("+" +:+ "3471234567") = "+" +:+ "3471234567" /\
   ("3471234567" <> "" -> PyStr.startswith "3471234567" "00" = false ->
    PyStr.startswith "3471234567" "+" = false ->
    normalize_phone "3471234567" = "+" +:+ "3471234567")).
Proof.
  split; [reflexivity | apply (normalize_phone_prefix_forms "3471234567"); reflexivity].
Defined.

(* ================================================================== *)
(** ** The field projector *)
(* ================================================================== *)

Section Projector.

Variable rec : Row.

(** One turn of the comprehension of [slice_row]. *)
Local Abbreviation step :=
  (fun (d : PyDict) (c : string) =>
     match rec !! c with
     | Some v => dict_set d c v
     | None => d
     end).

Lemma dict_set_fresh (d : PyDict) k v :
  k ∉ d.*1 -> dict_set d k v = (d ++ [(k, v)])%list.
Proof.
  induction d as [|[k' v'] d IH]; simpl; [reflexivity|].
  intros Hk. apply not_elem_of_cons in Hk as [Hne Hk].
  destruct (String.eqb_spec k' k); [congruence|]. rewrite (IH Hk). reflexivity.
Qed.

Lemma dict_set_same (d : PyDict) k v :
  (forall v', (k, v') ∈ d -> v' = v) -> k ∈ d.*1 -> dict_set d k v = d.
Proof.
  induction d as [|[k' v'] d IH]; simpl; intros Hv Hk.
  - apply elem_of_nil in Hk. contradiction.
  - destruct (String.eqb_spec k' k) as [->|Hne].
    + rewrite (Hv v') by apply list_elem_of_here. reflexivity.
    + apply elem_of_cons in Hk as [Hk|Hk]; [congruence|].
      rewrite IH; auto. intros v'' Hin. apply Hv. apply list_elem_of_further, Hin.
Qed.

(** What the comprehension keeps true of the dict it fills: its values are
    the record's, its keys are distinct, and its keys are the old ones
    plus the requested names the record has. *)
Lemma slice_fold_inv cols : forall d : PyDict,
  (forall k v, (k, v) ∈ d -> rec !! k = Some v) ->
  NoDup d.*1 ->
  (forall k v, (k, v) ∈ foldl step d cols -> rec !! k = Some v) /\
  NoDup (foldl step d cols).*1 /\
  (forall k, k ∈ (foldl step d cols).*1 <->
             k ∈ d.*1 \/ (k ∈ cols /\ is_Some (rec !! k))).
Proof.
  induction cols as [|c cs IH]; intros d Hcons Hnd; simpl.
  - split; [exact Hcons|]. split; [exact Hnd|].
    intros k. split; [auto|]. intros [H|[H _]]; [exact H|].
    apply elem_of_nil in H. contradiction.
  - destruct (rec !! c) as [v|] eqn:Hc.
    + destruct (decide (c ∈ d.*1)) as [Hin|Hnin].
      * rewrite dict_set_same; [| |exact Hin].
        2:{ intros v' Hv'. apply Hcons in Hv'. congruence. }
        destruct (IH d Hcons Hnd) as (H1 & H2 & H3).
        split; [exact H1|]. split; [exact H2|].
        intros k. rewrite H3, elem_of_cons. split.
        -- intros [H|[H Hs]]; auto.
        -- intros [H|[[->|H] Hs]]; auto.
      * rewrite dict_set_fresh by exact Hnin.
        destruct (IH (d ++ [(c, v)])%list) as (H1 & H2 & H3).
        { intros k v' Hin. apply elem_of_app in Hin as [Hin|Hin]; [auto|].
          apply list_elem_of_singleton in Hin. congruence. }
        { rewrite fmap_app. simpl. apply NoDup_app. split; [exact Hnd|].
          split; [|apply NoDup_singleton].
          intros k Hk Hk'. apply list_elem_of_singleton in Hk'. congruence. }
        split; [exact H1|]. split; [exact H2|].
        intros k. rewrite H3, fmap_app, elem_of_app, elem_of_cons. simpl.
        rewrite list_elem_of_singleton. split.
        -- intros [[H| ->]|[H Hs]]; [auto | | auto].
           right. split; [auto|]. rewrite Hc. eauto.
        -- intros [H|[[->|H] Hs]]; auto.
    + destruct (IH d Hcons Hnd) as (H1 & H2 & H3).
      split; [exact H1|]. split; [exact H2|].
      intros k. rewrite H3, elem_of_cons. split.
      * intros [H|[H Hs]]; auto.
      * intros [H|[[->|H] Hs]]; auto.
        rewrite Hc in Hs. destruct Hs as [? Hs]. discriminate Hs.
Qed.

(** X3. [slice_row] keeps exactly the requested names that the record has,
    each once and with the record's value: names the record lacks are
    dropped, and a name requested twice appears once. *)
Theorem slice_row_spec cols :
  NoDup (slice_row rec cols).*1 /\
  forall k v, (k, v) ∈ slice_row rec cols <-> k ∈ cols /\ rec !! k = Some v.
Proof.
  destruct (slice_fold_inv cols []) as (H1 & H2 & H3).
  { intros k v H. apply elem_of_nil in H. contradiction. }
  { apply NoDup_nil_2. }
  fold (slice_row rec cols) in H1, H2, H3.
  split; [exact H2|]. intros k v. split.
  - intros Hin. split; [|exact (H1 k v Hin)].
    assert (Hk : k ∈ (slice_row rec cols).*1).
    { apply list_elem_of_fmap. exists (k, v). auto. }
    apply H3 in Hk as [Hk|[Hk _]]; [|exact Hk].
    apply elem_of_nil in Hk. contradiction.
  - intros [Hk Hv].
    assert (Hin : k ∈ (slice_row rec cols).*1).
    { apply H3. right. rewrite Hv. eauto. }
    apply list_elem_of_fmap in Hin as ([k' v'] & -> & Hin). simpl.
    pose proof (H1 k' v' Hin) as Hv'. simpl in Hv. congruence.
Qed.

Lemma slice_fold_distinct cols : forall d : PyDict,
  NoDup cols -> (forall c, c ∈ cols -> c ∉ d.*1) ->
  foldl step d cols
  = (d ++ omap (fun c => pair c <$> rec !! c) cols)%list.
Proof.
  induction cols as [|c cs IH]; intros d Hnd Hfresh; simpl.
  - rewrite app_nil_r. reflexivity.
  - apply NoDup_cons in Hnd as [Hc Hnd].
    destruct (rec !! c) as [v|] eqn:Hv; simpl.
    + rewrite dict_set_fresh by (apply Hfresh, list_elem_of_here).
      rewrite IH; [rewrite <- app_assoc; reflexivity | exact Hnd |].
      intros c' Hc'. rewrite fmap_app, elem_of_app. simpl.
      rewrite list_elem_of_singleton. intros [H| ->]; [|contradiction].
      revert H. apply Hfresh, list_elem_of_further, Hc'.
    + apply IH; [exact Hnd|]. intros c' Hc'. apply Hfresh, list_elem_of_further, Hc'.
Qed.

(** X4. For requested names without repetition the output follows the
    order of the request: it is the request with the names the record
    lacks left out, each name paired with the record's value. *)
Theorem slice_row_order cols :
  NoDup cols ->
  slice_row rec cols = omap (fun c => pair c <$> rec !! c) cols.
Proof.
  intros Hnd. unfold slice_row.
  rewrite (slice_fold_distinct cols [] Hnd); [reflexivity|].
  intros c _ H. apply elem_of_nil in H. contradiction.
Qed.

End Projector.

(* ================================================================== *)
(** ** Further properties of loading *)
(* ================================================================== *)

Lemma filter_nil_Forall {A} (f : A -> bool) (l : list A) :
  List.filter f l = [] <-> Forall (fun x => f x = false) l.
Proof.
  induction l as [|x l IH]; simpl.
  - split; [intros _; apply List.Forall_nil | reflexivity].
  - destruct (f x) eqn:E.
    + split; [discriminate|]. intros H. apply Forall_cons_1 in H as [H _]. congruence.
    + rewrite IH. split; [intros H; apply List.Forall_cons; assumption|].
      intros H. apply Forall_cons_1 in H as [_ H]. exact H.
Qed.

(** The keys of an index are the values of the column. *)
Lemma build_index_dom (vals : list string) (k : string) :
  is_Some (build_index vals !! k) <-> k ∈ vals.
Proof.
  induction vals as [|v vals IH] using rev_ind.
  - unfold build_index. simpl. rewrite lookup_empty, elem_of_nil.
    split; [intros [? H]; discriminate H | contradiction].
  - rewrite build_index_snoc, lookup_insert, elem_of_app, list_elem_of_singleton.
    destruct (decide (v = k)) as [->|Hne].
    + split; eauto.
    + rewrite IH. split; [auto|]. intros [H|H]; [exact H | congruence].
Qed.

Ltac unfold_load_data_goal := cbv beta iota zeta delta [load_data].

Section LoadMore.

Variable CSV_PATH : string.
Variable PHONE_COL : string.
Variable CONTRACT_COL : string.
Variable DEFAULT_FIELDS : list string.

Local Abbreviation load_data :=
  (load_data CSV_PATH PHONE_COL CONTRACT_COL DEFAULT_FIELDS).
Local Abbreviation patch_row := (patch_row PHONE_COL CONTRACT_COL).

(** X5. With distinct phone and contract columns, loading succeeds exactly
    when the source was read into a frame that has the phone column, the
    contract column and every default field; a missing file, an empty
    file, any other read error and a missing required column all end in
    the load error. *)
Theorem load_data_succeeds_iff src :
  PHONE_COL <> CONTRACT_COL ->
  ((exists st, load_data src = Loaded st) <->
   exists raw, src = Frame raw /\
     PHONE_COL ∈ columns raw /\ CONTRACT_COL ∈ columns raw /\
     Forall (fun c => c ∈ columns raw) DEFAULT_FIELDS).
Proof.
  intros _.
  assert (Hcols : forall raw (b : bool),
            columns (if b then df_apply raw PHONE_COL normalize_phone else raw)
            = columns raw) by (intros raw []; reflexivity).
  split.
  - intros [st H]. destruct src as [| | msg | raw]; try discriminate H.
    exists raw. split; [reflexivity|].
    unfold_load_data H.
    destruct (List.filter _ _) eqn:Hmiss in H; [|discriminate H].
    apply filter_nil_Forall in Hmiss. rewrite Hcols in Hmiss.
    apply Forall_cons_1 in Hmiss as [Hp Hmiss].
    apply Forall_cons_1 in Hmiss as [Hc Hmiss].
    apply negb_false_iff, bool_decide_eq_true in Hp, Hc.
    split; [exact Hp|]. split; [exact Hc|].
    eapply Forall_impl; [exact Hmiss|]. simpl. intros c Hin.
    apply negb_false_iff, bool_decide_eq_true in Hin. exact Hin.
  - intros (raw & -> & Hp & Hc & Hd). unfold_load_data_goal.
    match goal with
    | |- context [List.filter ?f ?l] => assert (Hmiss : List.filter f l = [])
    end.
    { apply filter_nil_Forall. rewrite Hcols.
      repeat apply List.Forall_cons;
        try (apply negb_false_iff, bool_decide_eq_true; assumption).
      eapply Forall_impl; [exact Hd|]. simpl. intros c Hin.
      apply negb_false_iff, bool_decide_eq_true. exact Hin. }
    rewrite Hmiss. eexists. reflexivity.
Qed.

Lemma load_data_columns raw st :
  load_data (Frame raw) = Loaded st -> columns (df st) = columns raw.
Proof.
  intros H. unfold_load_data H.
  destruct (List.filter _ _) in H; [|discriminate H].
  injection H as <-. cbn [df].
  destruct (49 <? _)%nat; cbn [columns];
    destruct (bool_decide _); reflexivity.
Qed.

(** X6. Loading keeps the shape of the table and rewrites nothing but the
    phone column and the contract cell of row 49: the column labels and the
    number of rows are those of the source, and every other cell is the
    source's. *)
Theorem load_data_keeps_other_cells raw st :
  load_data (Frame raw) = Loaded st ->
  columns (df st) = columns raw /\
  List.length (rows (df st)) = List.length (rows raw) /\
  forall (i : nat) col,
    col <> PHONE_COL -> (i <> 49%nat \/ col <> CONTRACT_COL) ->
    (rows (df st) !! i) ≫= (fun r : Row => r !! col)
    = (rows raw !! i) ≫= (fun r : Row => r !! col).
Proof.
  intros H. split; [exact (load_data_columns raw st H)|].
  split; [exact (load_data_length _ _ _ _ _ _ _ H eq_refl)|].
  apply load_data_Loaded in H as (raw' & [= <-] & -> & _).
  intros i col Hp Hc. destruct (decide (i = 49%nat)) as [->|Hi].
  - destruct Hc as [Hc|Hc]; [congruence|].
    rewrite list_lookup_alter_eq, list_lookup_fmap.
    destruct (rows raw !! 49%nat) as [r|]; simpl; [|reflexivity].
    unfold_patch_row. rewrite !lookup_insert_ne by congruence. reflexivity.
  - rewrite list_lookup_alter_ne by congruence. rewrite list_lookup_fmap.
    destruct (rows raw !! i) as [r|]; simpl; [|reflexivity].
    rewrite lookup_insert_ne by congruence. reflexivity.
Qed.

(** X7. The keys of the two indices of a loaded store are exactly the
    values found in the phone column and in the contract column of the
    store: no row is left out of an index and no key is invented. *)
Theorem load_data_index_keys src st k :
  load_data src = Loaded st ->
  (is_Some (phone_idx st !! k) <-> k ∈ df_column (df st) PHONE_COL) /\
  (is_Some (contract_idx st !! k) <-> k ∈ df_column (df st) CONTRACT_COL).
Proof.
  intros H. apply load_data_Loaded in H as (raw & _ & _ & -> & ->).
  split; apply build_index_dom.
Qed.

(** A position found in an index holds a record whose key column is the
    key. *)
Lemma loaded_index_sound src st k (i : nat) :
  load_data src = Loaded st ->
  (phone_idx st !! k = Some i ->
   exists rec, df_loc (df st) i = Some rec /\ cell rec PHONE_COL = k) /\
  (contract_idx st !! k = Some i ->
   exists rec, df_loc (df st) i = Some rec /\ cell rec CONTRACT_COL = k).
Proof.
  intros H. apply load_data_Loaded in H as (raw & _ & _ & -> & ->).
  split; intros Hk; apply build_index_lookup in Hk as [Hk _];
    rewrite df_column_lookup in Hk; unfold df_loc;
    destruct (rows (df st) !! i) as [rec|]; simpl in Hk; try discriminate Hk;
    injection Hk as Hk; eauto.
Qed.

(** Every record of a loaded store has a phone cell. *)
Lemma loaded_row_has_phone src st (i : nat) rec :
  load_data src = Loaded st -> df_loc (df st) i = Some rec ->
  is_Some (rec !! PHONE_COL).
Proof.
  intros H Hrec. apply load_data_Loaded in H as (raw & _ & Hrows & _).
  unfold df_loc in Hrec. rewrite Hrows in Hrec.
  rewrite list_lookup_alter in Hrec.
  destruct (decide (49%nat = i)) as [<-|Hne].
  - rewrite list_lookup_fmap in Hrec.
    destruct (rows raw !! 49%nat) as [r|]; simpl in Hrec; [|discriminate Hrec].
    injection Hrec as <-. unfold_patch_row. rewrite lookup_insert_eq. eauto.
  - rewrite list_lookup_fmap in Hrec.
    destruct (rows raw !! i) as [r|]; simpl in Hrec; [|discriminate Hrec].
    injection Hrec as <-. rewrite lookup_insert_eq. eauto.
Qed.

(** The raw phone of a row other than row 49 is stored normalised. *)
Lemma loaded_phone_cell raw st (i : nat) r :
  load_data (Frame raw) = Loaded st -> rows raw !! i = Some r -> i <> 49%nat ->
  normalize_phone (cell r PHONE_COL) ∈ df_column (df st) PHONE_COL.
Proof.
  intros H Hr Hi. apply load_data_Loaded in H as (raw' & [= <-] & Hrows & _).
  apply list_elem_of_lookup. exists i.
  rewrite df_column_lookup, Hrows, list_lookup_alter_ne by congruence.
  rewrite list_lookup_fmap, Hr. simpl. rewrite cell_insert. reflexivity.
Qed.

(** In a store of more than 49 rows the literals of the patch are in the
    columns. *)
Lemma loaded_patch_cells raw st :
  load_data (Frame raw) = Loaded st -> PHONE_COL <> CONTRACT_COL ->
  (49 < List.length (rows raw))%nat ->
  "+393478933194" ∈ df_column (df st) PHONE_COL /\
  "1234566789" ∈ df_column (df st) CONTRACT_COL.
Proof.
  intros H Hne Hlen. apply load_data_Loaded in H as (raw' & [= <-] & Hrows & _).
  destruct (lookup_lt_is_Some_2 (rows raw) 49%nat Hlen) as [r Hr].
  split; apply list_elem_of_lookup; exists 49%nat;
    rewrite df_column_lookup, Hrows, list_lookup_alter_eq, list_lookup_fmap, Hr;
    simpl; unfold_patch_row; unfold cell.
  - rewrite lookup_insert_eq. reflexivity.
  - rewrite lookup_insert_ne, lookup_insert_eq by congruence. reflexivity.
Qed.

End LoadMore.

(* ================================================================== *)
(** ** Further properties of the request handlers *)
(* ================================================================== *)

Section HandlersMore.

Variable CSV_PATH : string.
Variable PHONE_COL : string.
Variable CONTRACT_COL : string.
Variable DEFAULT_FIELDS : list string.
Variable int_max_str_digits : nat.

Local Abbreviation load_data :=
  (load_data CSV_PATH PHONE_COL CONTRACT_COL DEFAULT_FIELDS).
Local Abbreviation get_by_phone := (get_by_phone DEFAULT_FIELDS).
Local Abbreviation get_by_contract := (get_by_contract DEFAULT_FIELDS).
Local Abbreviation wanted_fields := (wanted_fields DEFAULT_FIELDS).
Local Abbreviation get_num_tec := (get_num_tec int_max_str_digits).
Local Abbreviation get_num_amm := (get_num_amm int_max_str_digits).
Local Abbreviation get_wifi_active := (get_wifi_active int_max_str_digits).
Local Abbreviation get_num_tec_by_phone := (get_num_tec_by_phone int_max_str_digits).
Local Abbreviation get_num_amm_by_phone := (get_num_amm_by_phone int_max_str_digits).
Local Abbreviation get_wifi_active_by_phone :=
  (get_wifi_active_by_phone int_max_str_digits).

(** A key found in the Phone Index of a loaded store: the lookup answers
    the projection of a record that holds the normalised phone. *)
Lemma get_by_phone_found src st phone fields (i : nat) :
  load_data src = Loaded st ->
  phone_idx st !! normalize_phone phone = Some i ->
  exists rec, df_loc (df st) i = Some rec /\
    rec !! PHONE_COL = Some (normalize_phone phone) /\
    get_by_phone st phone fields
    = Ok (JObj [("data", json_of_dict (slice_row rec (wanted_fields fields)))]).
Proof.
  intros Hload Hk.
  destruct (loaded_index_sound _ _ _ _ src st (normalize_phone phone) i Hload)
    as [Hs _].
  destruct (Hs Hk) as (rec & Hrec & Hcell). exists rec.
  split; [exact Hrec|]. split.
  - destruct (loaded_row_has_phone _ _ _ _ src st i rec Hload Hrec) as [v Hv].
    unfold cell in Hcell. rewrite Hv in *. simpl in Hcell. congruence.
  - unfold_handler. rewrite Hk, Hrec. reflexivity.
Qed.

Lemma get_by_contract_found src st code fields (i : nat) :
  load_data src = Loaded st -> code <> "" ->
  contract_idx st !! code = Some i ->
  exists rec, df_loc (df st) i = Some rec /\
    rec !! CONTRACT_COL = Some code /\
    get_by_contract st code fields
    = Ok (JObj [("data", json_of_dict (slice_row rec (wanted_fields fields)))]).
Proof.
  intros Hload Hne Hk.
  destruct (loaded_index_sound _ _ _ _ src st code i Hload) as [_ Hs].
  destruct (Hs Hk) as (rec & Hrec & Hcell). exists rec.
  split; [exact Hrec|]. split.
  - unfold cell in Hcell. destruct (rec !! CONTRACT_COL) as [v|]; simpl in Hcell;
      congruence.
  - unfold_handler. destruct (String.eqb_spec code ""); [contradiction|].
    rewrite Hk, Hrec. reflexivity.
Qed.

(** X8. Every customer of a loaded store can be found by contract code:
    for each row whose contract code is not empty, [get_by_contract] with
    that code answers 200. *)
Theorem every_contract_reachable src st (i : nat) r fields :
  load_data src = Loaded st ->
  rows (df st) !! i = Some r ->
  cell r CONTRACT_COL <> "" ->
  status (get_by_contract st (cell r CONTRACT_COL) fields) = 200%nat.
Proof.
  intros Hload Hr Hne.
  assert (Hin : cell r CONTRACT_COL ∈ df_column (df st) CONTRACT_COL).
  { apply list_elem_of_lookup. exists i. rewrite df_column_lookup, Hr. reflexivity. }
  apply (load_data_index_keys _ _ _ _ src st _ Hload) in Hin as [j Hj].
  destruct (get_by_contract_found src st _ fields j Hload Hne Hj) as (rec & _ & _ & ->).
  reflexivity.
Qed.

(** X9. Every customer other than row 49 can be found by the phone exactly
    as the source wrote it: [get_by_phone] with the raw cell answers 200;
    and when the raw cell matches the digit/plus pattern, so does
    [get_by_phone] with the stored, normalised phone. *)
Theorem every_source_phone_reachable raw st (i : nat) r fields :
  load_data (Frame raw) = Loaded st ->
  rows raw !! i = Some r ->
  i <> 49%nat ->
  status (get_by_phone st (cell r PHONE_COL) fields) = 200%nat /\
  (PHONE_REGEX_match (cell r PHONE_COL) = true ->
   status (get_by_phone st (normalize_phone (cell r PHONE_COL)) fields) = 200%nat).
Proof.
  intros Hload Hr Hi.
  pose proof (loaded_phone_cell _ _ _ _ raw st i r Hload Hr Hi) as Hin.
  apply (load_data_index_keys _ _ _ _ (Frame raw) st _ Hload) in Hin as [j Hj].
  split.
  - destruct (get_by_phone_found _ st _ fields j Hload Hj) as (rec & _ & _ & ->).
    reflexivity.
  - intros Hm. destruct (normalize_phone_of_match _ Hm) as (w & Hw & Hn).
    assert (Hfix : normalize_phone (normalize_phone (cell r PHONE_COL))
                   = normalize_phone (cell r PHONE_COL)).
    { rewrite Hn. apply normalize_phone_plus, Hw. }
    rewrite <- Hfix in Hj.
    destruct (get_by_phone_found _ st _ fields j Hload Hj) as (rec & _ & _ & ->).
    reflexivity.
Qed.

(** X10. A successful generic lookup on a loaded store answers the
    projection of a record that holds the key asked for: the normalised
    phone in the phone column, resp. the code in the contract column. *)
Theorem lookup_returns_matching_record src st phone code fields :
  load_data src = Loaded st ->
  (status (get_by_phone st phone fields) = 200%nat ->
   exists rec, rec ∈ rows (df st) /\
     rec !! PHONE_COL = Some (normalize_phone phone) /\
     get_by_phone st phone fields
     = Ok (JObj [("data", json_of_dict (slice_row rec (wanted_fields fields)))])) /\
  (status (get_by_contract st code fields) = 200%nat ->
   exists rec, rec ∈ rows (df st) /\
     rec !! CONTRACT_COL = Some code /\
     get_by_contract st code fields
     = Ok (JObj [("data", json_of_dict (slice_row rec (wanted_fields fields)))])).
Proof.
  intros Hload. split; intros Hok.
  - destruct (phone_idx st !! normalize_phone phone) as [i|] eqn:Hk.
    + destruct (get_by_phone_found src st phone fields i Hload Hk)
        as (rec & Hrec & Hcell & Heq).
      exists rec. split; [|auto]. apply list_elem_of_lookup. exists i. exact Hrec.
    + exfalso. revert Hok. unfold_handler. rewrite Hk. discriminate.
  - destruct (String.eqb_spec code "") as [->|Hne].
    { exfalso. revert Hok. unfold_handler. simpl. discriminate. }
    destruct (contract_idx st !! code) as [i|] eqn:Hk.
    + destruct (get_by_contract_found src st code fields i Hload Hne Hk)
        as (rec & Hrec & Hcell & Heq).
      exists rec. split; [|auto]. apply list_elem_of_lookup. exists i. exact Hrec.
    + exfalso. revert Hok. unfold_handler.
      destruct (String.eqb_spec code ""); [contradiction|]. rewrite Hk. discriminate.
Qed.

Lemma loaded_row src st k (i : nat) :
  load_data src = Loaded st ->
  phone_idx st !! k = Some i \/ contract_idx st !! k = Some i ->
  exists rec, df_loc (df st) i = Some rec.
Proof.
  intros Hload Hk. unfold df_loc. apply lookup_lt_is_Some_2.
  exact (loaded_positions _ _ _ _ src st k i Hload Hk).
Qed.

(** X11. On a loaded store the generic lookups and the userName accessors
    never answer the internal error: fetching and projecting a resolved
    row cannot fail. *)
Theorem lookups_never_internal_error src st phone code fields :
  load_data src = Loaded st ->
  status (get_by_phone st phone fields) <> InternalError /\
  status (get_by_contract st code fields) <> InternalError /\
  status (get_user_name st code) <> InternalError /\
  status (get_user_name_by_phone st phone) <> InternalError.
Proof.
  intros Hload. split; [|split; [|split]].
  - destruct (phone_idx st !! normalize_phone phone) as [i|] eqn:Hk.
    + destruct (get_by_phone_found src st phone fields i Hload Hk) as (rec & _ & _ & ->).
      discriminate.
    + unfold_handler. rewrite Hk. discriminate.
  - destruct (String.eqb_spec code "") as [->|Hne]; [unfold_handler; discriminate|].
    destruct (contract_idx st !! code) as [i|] eqn:Hk.
    + destruct (get_by_contract_found src st code fields i Hload Hne Hk)
        as (rec & _ & _ & ->).
      discriminate.
    + unfold_handler. destruct (String.eqb_spec code ""); [contradiction|].
      rewrite Hk. discriminate.
  - unfold_handler. destruct (contract_idx st !! code) as [i|] eqn:Hk; [|discriminate].
    destruct (loaded_row src st code i Hload (or_intror Hk)) as [rec ->].
    simpl. unfold series_get. destruct (rec !! "user_name"); discriminate.
  - unfold_handler.
    destruct (phone_idx st !! normalize_phone phone) as [i|] eqn:Hk; [|discriminate].
    destruct (loaded_row src st _ i Hload (or_introl Hk)) as [rec ->].
    simpl. unfold series_get. destruct (rec !! "user_name"); discriminate.
Qed.

(** X12. A single-field accessor keyed by contract code and its
    phone-keyed variant give the same response whenever the code and the
    phone resolve to the same row position; unlike the generic lookups,
    this holds for the empty code too. *)
Theorem accessors_agree_on_same_row st phone code (i : nat) :
  phone_idx st !! normalize_phone phone = Some i ->
  contract_idx st !! code = Some i ->
  get_num_tec st code = get_num_tec_by_phone st phone /\
  get_num_amm st code = get_num_amm_by_phone st phone /\
  get_wifi_active st code = get_wifi_active_by_phone st phone /\
  get_user_name st code = get_user_name_by_phone st phone.
Proof.
  intros Hp Hc. unfold_handler. rewrite Hp, Hc. auto.
Qed.

(** X13. On a loaded store the userName accessors answer, for a key that
    resolves, the [user_name] cell of the record as it is stored, and the
    empty string when the table has no such column. *)
Theorem user_name_accessors src st phone code :
  load_data src = Loaded st ->
  (forall i : nat, contract_idx st !! code = Some i ->
     exists rec, df_loc (df st) i = Some rec /\
       get_user_name st code = Ok (JObj [("user_name", JStr (cell rec "user_name"))])) /\
  (forall i : nat, phone_idx st !! normalize_phone phone = Some i ->
     exists rec, df_loc (df st) i = Some rec /\
       get_user_name_by_phone st phone
       = Ok (JObj [("user_name", JStr (cell rec "user_name"))])).
Proof.
  intros Hload. split; intros i Hk.
  - destruct (loaded_row src st code i Hload (or_intror Hk)) as [rec Hrec].
    exists rec. split; [exact Hrec|]. unfold_handler. rewrite Hk, Hrec.
    simpl. unfold series_get, cell. destruct (rec !! "user_name"); reflexivity.
  - destruct (loaded_row src st _ i Hload (or_introl Hk)) as [rec Hrec].
    exists rec. split; [exact Hrec|]. unfold_handler. rewrite Hk, Hrec.
    simpl. unfold series_get, cell. destruct (rec !! "user_name"); reflexivity.
Qed.

(** X15. In a loaded store of more than 49 rows the patched customer is
    always found: by the phone [+393478933194] and by the contract code
    [1234566789] (the phone and contract columns being distinct). *)
Theorem patched_customer_reachable raw st fields :
  load_data (Frame raw) = Loaded st ->
  PHONE_COL <> CONTRACT_COL ->
  (49 < List.length (rows raw))%nat ->
  status (get_by_phone st "+393478933194" fields) = 200%nat /\
  status (get_by_contract st "1234566789" fields) = 200%nat.
Proof.
  intros Hload Hne Hlen.
  destruct (loaded_patch_cells _ _ _ _ raw st Hload Hne Hlen) as [Hp Hc].
  apply (load_data_index_keys _ _ _ _ (Frame raw) st _ Hload) in Hp as [i Hi].
  apply (load_data_index_keys _ _ _ _ (Frame raw) st _ Hload) in Hc as [j Hj].
  split.
  - change "+393478933194" with (normalize_phone "+393478933194") in Hi.
    destruct (get_by_phone_found _ st _ fields i Hload Hi) as (rec & _ & _ & ->).
    reflexivity.
  - assert (Hcode : "1234566789" <> "") by discriminate.
    destruct (get_by_contract_found _ st _ fields j Hload Hcode Hj)
      as (rec & _ & _ & ->).
    reflexivity.
Qed.

Lemma isdigit_plain c :
  PyStr.isdigit c = true ->
  PyInt.int_space c = false /\ Ascii.eqb c "+"%char = false /\
  Ascii.eqb c "-"%char = false /\ Ascii.eqb c "_"%char = false.
Proof.
  destruct c as [[] [] [] [] [] [] [] []]; vm_compute; intros H;
    first [ discriminate H | repeat split; reflexivity ].
Qed.

Lemma scan_digits_only s :
  only_digits s = true ->
  forall acc (n : nat), (0 <= acc)%Z ->
  exists v, (0 <= v)%Z /\
    PyInt.scan_digits false acc n s = Some (v, (n + String.length s)%nat, EmptyString).
Proof.
  induction s as [|c s IH]; simpl; intros Hd acc n Hacc.
  - exists acc. rewrite Nat.add_0_r. auto.
  - apply andb_true_iff in Hd as [Hc Hs]. rewrite Hc.
    destruct (IH Hs (10 * acc + PyInt.digit_value c)%Z (S n)) as (v & Hv & ->).
    { unfold PyInt.digit_value. lia. }
    exists v. split; [exact Hv|]. do 3 f_equal. lia.
Qed.

(** [int] accepts every non-empty string of decimal digits within the
    digit limit, and the value is not negative. *)
Lemma of_str_only_digits s :
  only_digits s = true -> s <> "" ->
  (int_max_str_digits = 0 \/ String.length s <= int_max_str_digits)%nat ->
  exists v, (0 <= v)%Z /\ PyInt.of_str int_max_str_digits s = Some v.
Proof.
  intros Hd Hne Hlim. destruct s as [|c s]; [contradiction|].
  pose proof Hd as Hd'. cbn [only_digits] in Hd'.
  apply andb_true_iff in Hd' as [Hc _].
  destruct (isdigit_plain c Hc) as (Hsp & Hplus & Hminus & Hus).
  destruct (scan_digits_only _ Hd 0%Z 0%nat) as (v & Hv & Hscan); [lia|].
  exists (1 * v)%Z. split; [lia|].
  unfold PyInt.of_str. cbn [PyStr.lstrip_by]. rewrite Hsp, Hplus, Hminus, Hus, Hscan.
  cbn [Nat.add String.length Nat.eqb PyStr.lstrip_by String.eqb].
  replace ((0 <? int_max_str_digits)%nat
           && (int_max_str_digits <? S (String.length s))%nat) with false;
    [reflexivity|].
  symmetry. apply andb_false_iff. cbn [String.length] in Hlim.
  destruct Hlim as [-> | Hle]; [left; reflexivity|].
  right. apply Nat.ltb_ge. exact Hle.
Qed.

(** X14. A non-empty cell of decimal digits within the interpreter's digit
    limit is always converted: for a resolved record the numeric accessors
    answer 200 with a non-negative integer for such a cell. *)
Theorem numeric_cells_of_digits st code (i : nat) rec :
  contract_idx st !! code = Some i ->
  df_loc (df st) i = Some rec ->
  Forall (fun rf : Response * string =>
            forall s, rec !! rf.2 = Some s ->
              only_digits s = true -> s <> "" ->
              (int_max_str_digits = 0 \/ String.length s <= int_max_str_digits)%nat ->
              exists n, (0 <= n)%Z /\ rf.1 = Ok (JObj [(rf.2, JInt n)]))
    [(get_num_tec st code, "num_contact_tec");
     (get_num_amm st code, "num_contact_amm");
     (get_wifi_active st code, "bb_active")].
Proof.
  intros Hc Hrec.
  repeat apply List.Forall_cons; try apply List.Forall_nil;
    cbn [fst snd]; intros s Hs Hd Hne Hlim;
    destruct (of_str_only_digits s Hd Hne Hlim) as (n & Hn & Hof);
    exists n; (split; [exact Hn|]);
    unfold_handler; rewrite Hc, Hrec; simpl; unfold series_get; rewrite Hs;
    simpl; rewrite Hof; reflexivity.
Qed.

Lemma load_data_required raw st :
  load_data (Frame raw) = Loaded st ->
  Forall (fun c => c ∈ columns raw) DEFAULT_FIELDS.
Proof.
  intros H. unfold_load_data H.
  destruct (List.filter _ _) eqn:Hmiss in H; [|discriminate H].
  apply filter_nil_Forall in Hmiss.
  apply Forall_cons_1 in Hmiss as [_ Hmiss].
  apply Forall_cons_1 in Hmiss as [_ Hmiss].
  eapply Forall_impl; [exact Hmiss|]. cbv beta. intros c Hin.
  apply negb_false_iff, bool_decide_eq_true in Hin.
  destruct (bool_decide (PHONE_COL ∈ columns raw)); exact Hin.
Qed.

(** Loading a rectangular table leaves every record with a cell for every
    column. *)
Lemma loaded_rectangular raw st (i : nat) rec col :
  load_data (Frame raw) = Loaded st -> rectangular raw ->
  df_loc (df st) i = Some rec -> col ∈ columns raw -> is_Some (rec !! col).
Proof.
  intros H Hrect Hrec Hcol.
  apply load_data_Loaded in H as (raw' & [= <-] & Hrows & _).
  unfold df_loc in Hrec. rewrite Hrows, list_lookup_alter in Hrec.
  assert (Hraw : forall r, rows raw !! i = Some r -> is_Some (r !! col)).
  { intros r Hr. unfold rectangular in Hrect.
    rewrite Forall_lookup in Hrect. exact (Hrect i r Hr col Hcol). }
  destruct (decide (49%nat = i)) as [<-|Hne]; rewrite list_lookup_fmap in Hrec.
  - destruct (rows raw !! 49%nat) as [r|]; simpl in Hrec; [|discriminate Hrec].
    injection Hrec as <-. unfold patch_row.
    rewrite !lookup_insert_is_Some'. auto.
  - destruct (rows raw !! i) as [r|]; simpl in Hrec; [|discriminate Hrec].
    injection Hrec as <-. rewrite lookup_insert_is_Some'. auto.
Qed.

Lemma omap_all_present (rec : Row) (l : list string) :
  Forall (fun c => is_Some (rec !! c)) l ->
  omap (fun c => pair c <$> rec !! c) l = (fun c => (c, cell rec c)) <$> l.
Proof.
  induction 1 as [|c l [v Hv] _ IH]; [reflexivity|].
  cbn [omap list_omap fmap list_fmap]. unfold cell at 1. rewrite Hv.
  cbn [fmap option_fmap option_map default]. f_equal. exact IH.
Qed.

(** X16. End to end: for a rectangular source table and a default field
    list without repetition, a generic lookup without [fields] answers
    exactly the default fields of the resolved record, in the configured
    order. *)
Theorem default_projection_complete raw st :
  load_data (Frame raw) = Loaded st ->
  rectangular raw ->
  NoDup DEFAULT_FIELDS ->
  (forall code (i : nat), code <> "" -> contract_idx st !! code = Some i ->
     exists rec, df_loc (df st) i = Some rec /\
       get_by_contract st code None
       = Ok (JObj [("data",
                    json_of_dict ((fun c => (c, cell rec c)) <$> DEFAULT_FIELDS))])) /\
  (forall phone (i : nat), phone_idx st !! normalize_phone phone = Some i ->
     exists rec, df_loc (df st) i = Some rec /\
       get_by_phone st phone None
       = Ok (JObj [("data",
                    json_of_dict ((fun c => (c, cell rec c)) <$> DEFAULT_FIELDS))])).
Proof.
  intros Hload Hrect Hnd.
  assert (Hproj : forall (i : nat) rec, df_loc (df st) i = Some rec ->
            slice_row rec DEFAULT_FIELDS
            = (fun c => (c, cell rec c)) <$> DEFAULT_FIELDS).
  { intros i rec Hrec. unfold slice_row.
    rewrite (slice_fold_distinct rec DEFAULT_FIELDS [] Hnd).
    - simpl. apply omap_all_present.
      eapply Forall_impl; [exact (load_data_required raw st Hload)|].
      cbv beta. intros c Hc. exact (loaded_rectangular raw st i rec c Hload Hrect Hrec Hc).
    - intros c _ H. apply elem_of_nil in H. contradiction. }
  split.
  - intros code i Hne Hk.
    destruct (get_by_contract_found (Frame raw) st code None i Hload Hne Hk)
      as (rec & Hrec & _ & Heq).
    exists rec. split; [exact Hrec|]. rewrite Heq.
    change (wanted_fields None) with DEFAULT_FIELDS.
    rewrite (Hproj i rec Hrec). reflexivity.
  - intros phone i Hk.
    destruct (get_by_phone_found (Frame raw) st phone None i Hload Hk)
      as (rec & Hrec & _ & Heq).
    exists rec. split; [exact Hrec|]. rewrite Heq.
    change (wanted_fields None) with DEFAULT_FIELDS.
    rewrite (Hproj i rec Hrec). reflexivity.
Qed.

End HandlersMore.

(* ================================================================== *)
(** ** The diagnostic listing and the field selector *)
(* ================================================================== *)

Ltac unfold_list_phones := unfold list_phones.

Section Listing.

Lemma odict_set_keys {V} (d : list (string * V)) k v :
  (odict_set d k v).*1 = if decide (k ∈ d.*1) then d.*1 else (d.*1 ++ [k])%list.
Proof.
  induction d as [|[k' v'] d IH].
  - simpl. try case_decide;
      first [ reflexivity | exfalso; eapply elem_of_nil; eassumption ].
  - cbn [odict_set]. destruct (String.eqb_spec k' k) as [->|Hne].
    + rewrite !fmap_cons. cbn [fst].
      destruct (decide (k ∈ k :: d.*1)) as [_|H]; [reflexivity|].
      exfalso. apply H, list_elem_of_here.
    + rewrite !fmap_cons, IH. cbn [fst].
      destruct (decide (k ∈ d.*1)) as [H1|H1];
        destruct (decide (k ∈ k' :: d.*1)) as [H2|H2]; try reflexivity.
      * exfalso. apply H2, list_elem_of_further, H1.
      * apply elem_of_cons in H2 as [H2|H2]; [congruence | contradiction].
Qed.

Lemma odict_set_NoDup {V} (d : list (string * V)) k v :
  NoDup d.*1 -> NoDup (odict_set d k v).*1.
Proof.
  intros Hnd. rewrite odict_set_keys. destruct (decide (k ∈ d.*1)); [exact Hnd|].
  apply NoDup_app. split; [exact Hnd|]. split; [|apply NoDup_singleton].
  intros x Hx Hx'. apply list_elem_of_singleton in Hx'. congruence.
Qed.

(** Assigning in the ordered dict is inserting in the map it stands for. *)
Lemma odict_set_to_map {V} (d : list (string * V)) k v :
  (list_to_map (odict_set d k v) : gmap string V) = <[k := v]> (list_to_map d).
Proof.
  induction d as [|[k' v'] d IH]; simpl; [reflexivity|].
  destruct (String.eqb_spec k' k) as [->|Hne]; simpl.
  - rewrite insert_insert_eq. reflexivity.
  - rewrite IH. apply insert_insert_ne. congruence.
Qed.

Lemma ordered_fold (l : list (nat * string)) : forall d : list (string * nat),
  NoDup d.*1 ->
  NoDup (foldl (fun d iv => odict_set d iv.2 iv.1) d l).*1 /\
  (list_to_map (foldl (fun d iv => odict_set d iv.2 iv.1) d l) : gmap string nat)
  = foldl (fun m iv => <[iv.2 := iv.1]> m) (list_to_map d) l.
Proof.
  induction l as [|[i v] l IH]; intros d Hnd; simpl; [auto|].
  destruct (IH (odict_set d v i) (odict_set_NoDup d v i Hnd)) as [H1 H2].
  split; [exact H1|]. rewrite H2, odict_set_to_map. reflexivity.
Qed.

(** The ordered dict and the index of the store are the same dict. *)
Lemma build_index_ordered_agrees (vals : list string) :
  NoDup (build_index_ordered vals).*1 /\
  (list_to_map (build_index_ordered vals) : gmap string nat) = build_index vals.
Proof.
  unfold build_index_ordered, build_index.
  apply (ordered_fold (imap pair vals) []). apply NoDup_nil_2.
Qed.

Variable CSV_PATH : string.
Variable PHONE_COL : string.
Variable CONTRACT_COL : string.
Variable DEFAULT_FIELDS : list string.

Local Abbreviation load_data :=
  (load_data CSV_PATH PHONE_COL CONTRACT_COL DEFAULT_FIELDS).
Local Abbreviation list_phones := (list_phones PHONE_COL).
Local Abbreviation wanted_fields := (wanted_fields DEFAULT_FIELDS).

(** X17. On a loaded store the diagnostic listing holds at most 20 phones,
    no phone twice, and only keys of the Phone Index; when the index has at
    most 20 keys, it lists them all. *)
Theorem list_phones_spec src st :
  load_data src = Loaded st ->
  (List.length (list_phones st) <= 20)%nat /\
  NoDup (list_phones st) /\
  (forall k, k ∈ list_phones st -> is_Some (phone_idx st !! k)) /\
  ((size (phone_idx st) <= 20)%nat ->
   forall k, is_Some (phone_idx st !! k) -> k ∈ list_phones st).
Proof.
  intros Hload. apply load_data_Loaded in Hload as (raw & _ & _ & Hp & _).
  unfold_list_phones. rewrite Hp.
  destruct (build_index_ordered_agrees (df_column (df st) PHONE_COL)) as [Hnd Hmap].
  rewrite <- Hmap. clear Hmap Hp.
  generalize dependent (build_index_ordered (df_column (df st) PHONE_COL)).
  intros ord Hnd. split; [|split; [|split]].
  - rewrite length_take. lia.
  - eapply sublist_NoDup; [exact Hnd | apply sublist_take].
  - intros k Hk. apply subseteq_take in Hk.
    apply list_elem_of_fmap in Hk as ([k' v] & -> & Hin).
    exists v. apply elem_of_list_to_map_1; assumption.
  - intros Hsize k [v Hv]. rewrite map_size_list_to_map in Hsize by exact Hnd.
    rewrite take_ge by (rewrite length_fmap; exact Hsize).
    apply elem_of_list_to_map_2 in Hv.
    apply list_elem_of_fmap. exists (k, v). auto.
Qed.

Lemma split_nonempty sep s : PyStr.split sep s <> [].
Proof.
  induction s as [|c s IH]; simpl; [discriminate|].
  destruct (Ascii.eqb c sep); [discriminate|].
  destruct (PyStr.split sep s); discriminate.
Qed.

Lemma join_split s : PyStr.join "," (PyStr.split ","%char s) = s.
Proof.
  induction s as [|c s IH]; [reflexivity|]. cbn [PyStr.split].
  pose proof (split_nonempty ","%char s) as Hne.
  destruct (Ascii.eqb_spec c ","%char) as [->|Hc].
  - destruct (PyStr.split ","%char s) as [|w ws]; [contradiction|].
    cbn [PyStr.join]. cbn [PyStr.join] in IH. rewrite IH. reflexivity.
  - destruct (PyStr.split ","%char s) as [|w ws]; [contradiction|].
    destruct ws as [|w' ws]; cbn [PyStr.join] in *; rewrite <- IH; reflexivity.
Qed.

Lemma split_no_sep s :
  Forall (fun n => str_contains "," n = false) (PyStr.split ","%char s).
Proof.
  induction s as [|c s IH]; cbn [PyStr.split].
  - apply List.Forall_cons; [reflexivity | apply List.Forall_nil].
  - destruct (Ascii.eqb c ","%char) eqn:Hc.
    + apply List.Forall_cons; [reflexivity | exact IH].
    + destruct (PyStr.split ","%char s) as [|w ws].
      * apply List.Forall_cons; [|apply List.Forall_nil].
        cbn [str_contains]. rewrite Hc. reflexivity.
      * apply Forall_cons_1 in IH as [Hw Hws].
        apply List.Forall_cons; [|exact Hws].
        cbn [str_contains]. rewrite Hc, Hw. reflexivity.
Qed.

(** X18. A non-empty [fields] selector is cut at its commas and nowhere
    else: the requested names joined by commas give the selector back, no
    name holds a comma, and there is at least one name. *)
Theorem wanted_fields_explicit s :
  s <> "" ->
  wanted_fields (Some s) <> [] /\
  PyStr.join "," (wanted_fields (Some s)) = s /\
  Forall (fun n => str_contains "," n = false) (wanted_fields (Some s)).
Proof.
  intros Hne. destruct s as [|c s]; [contradiction|].
  change (wanted_fields (Some (String c s)))
    with (PyStr.split ","%char (String c s)).
  split; [apply split_nonempty|]. split; [apply join_split | apply split_no_sep].
Qed.

End Listing.

(* ================================================================== *)
(** ** Worked instances of the further properties *)
(* ================================================================== *)

(** The sample tables are rectangular. *)
Ltac sample_rectangular :=
  unfold rectangular;
  repeat (apply List.Forall_cons || apply List.Forall_nil);
  intros col Hcol;
  repeat (apply elem_of_cons in Hcol as [-> | Hcol]; [vm_compute; eauto|]);
  apply elem_of_nil in Hcol; contradiction.

Ltac sample_fact := first [ vm_compute; reflexivity | vm_compute; discriminate ].

Lemma slice_row_order_witness :
  NoDup ["status"; "zz"; "platform"] /\
  slice_row first_customer ["status"; "zz"; "platform"]
  = omap (fun c => pair c <$> first_customer !! c) ["status"; "zz"; "platform"].
Proof.
  assert (Hnd : NoDup ["status"; "zz"; "platform"]).
  { apply (bool_decide_unpack _). vm_compute. exact I. }
  split; [exact Hnd|].
  apply (slice_row_order first_customer ["status"; "zz"; "platform"] Hnd).
Defined.

Lemma load_data_keeps_other_cells_witness :
  sample_load duplicate_frame = Loaded duplicate_store /\
  (columns (df duplicate_store) = columns duplicate_frame /\
   List.length (rows (df duplicate_store)) = List.length (rows duplicate_frame) /\
   forall (i : nat) col,
     col <> default_PHONE_COL -> (i <> 49%nat \/ col <> default_CONTRACT_COL) ->
     (rows (df duplicate_store) !! i) ≫= (fun r : Row => r !! col)
     = (rows duplicate_frame !! i) ≫= (fun r : Row => r !! col)).
Proof.
  split; [sample_fact|].
  apply (load_data_keeps_other_cells default_CSV_PATH default_PHONE_COL
           default_CONTRACT_COL default_DEFAULT_FIELDS duplicate_frame).
  sample_fact.
Defined.

Lemma load_data_index_keys_witness :
  sample_load duplicate_frame = Loaded duplicate_store /\
  ((is_Some (phone_idx duplicate_store !! "+02555") <->
    "+02555" ∈ df_column (df duplicate_store) default_PHONE_COL) /\
   (is_Some (contract_idx duplicate_store !! "+02555") <->
    "+02555" ∈ df_column (df duplicate_store) default_CONTRACT_COL)).
Proof.
  split; [sample_fact|].
  apply (load_data_index_keys default_CSV_PATH default_PHONE_COL
           default_CONTRACT_COL default_DEFAULT_FIELDS (Frame duplicate_frame)).
  sample_fact.
Defined.

Lemma every_contract_reachable_witness :
  (sample_load blank_contract_frame = Loaded blank_contract_store /\
   rows (df blank_contract_store) !! 0%nat = Some first_customer /\
   cell first_customer default_CONTRACT_COL <> "") /\
  status (get_by_contract default_DEFAULT_FIELDS blank_contract_store
            (cell first_customer default_CONTRACT_COL) None) = 200%nat.
Proof.
  split; [repeat split; sample_fact|].
  apply (every_contract_reachable default_CSV_PATH default_PHONE_COL
           default_CONTRACT_COL default_DEFAULT_FIELDS
           (Frame blank_contract_frame) blank_contract_store 0 first_customer None);
    sample_fact.
Defined.

Lemma every_source_phone_reachable_witness :
  (sample_load duplicate_frame = Loaded duplicate_store /\
   rows duplicate_frame !! 2%nat = Some (sample_row "347-1234567" "C1" "7")) /\
  (status (get_by_phone default_DEFAULT_FIELDS duplicate_store
             (cell (sample_row "347-1234567" "C1" "7") default_PHONE_COL) None)
   = 200%nat /\
   (PHONE_REGEX_match (cell (sample_row "347-1234567" "C1" "7") default_PHONE_COL)
    = true ->
    status (get_by_phone default_DEFAULT_FIELDS duplicate_store
              (normalize_phone
                 (cell (sample_row "347-1234567" "C1" "7") default_PHONE_COL)) None)
    = 200%nat)).
Proof.
  split; [split; sample_fact|].
  apply (every_source_phone_reachable default_CSV_PATH default_PHONE_COL
           default_CONTRACT_COL default_DEFAULT_FIELDS duplicate_frame
           duplicate_store 2 (sample_row "347-1234567" "C1" "7") None);
    first [ sample_fact | lia ].
Defined.

Lemma lookup_returns_matching_record_witness :
  sample_load duplicate_frame = Loaded duplicate_store /\
  ((status (get_by_phone default_DEFAULT_FIELDS duplicate_store "02555" None)
    = 200%nat ->
    exists rec, rec ∈ rows (df duplicate_store) /\
      rec !! default_PHONE_COL = Some (normalize_phone "02555") /\
      get_by_phone default_DEFAULT_FIELDS duplicate_store "02555" None
      = Ok (JObj [("data",
                   json_of_dict
                     (slice_row rec (wanted_fields default_DEFAULT_FIELDS None)))])) /\
   (status (get_by_contract default_DEFAULT_FIELDS duplicate_store "C2" None)
    = 200%nat ->
    exists rec, rec ∈ rows (df duplicate_store) /\
      rec !! default_CONTRACT_COL = Some "C2" /\
      get_by_contract default_DEFAULT_FIELDS duplicate_store "C2" None
      = Ok (JObj [("data",
                   json_of_dict
                     (slice_row rec (wanted_fields default_DEFAULT_FIELDS None)))]))).
Proof.
  split; [sample_fact|].
  apply (lookup_returns_matching_record default_CSV_PATH default_PHONE_COL
           default_CONTRACT_COL default_DEFAULT_FIELDS (Frame duplicate_frame)).
  sample_fact.
Defined.

Lemma lookups_never_internal_error_witness :
  sample_load blank_tec_frame = Loaded blank_tec_store /\
  (status (get_by_phone default_DEFAULT_FIELDS blank_tec_store "0039 347" None)
   <> InternalError /\
   status (get_by_contract default_DEFAULT_FIELDS blank_tec_store "C1" None)
   <> InternalError /\
   status (get_user_name blank_tec_store "C1") <> InternalError /\
   status (get_user_name_by_phone blank_tec_store "0039 347") <> InternalError).
Proof.
  split; [sample_fact|].
  apply (lookups_never_internal_error default_CSV_PATH default_PHONE_COL
           default_CONTRACT_COL default_DEFAULT_FIELDS (Frame blank_tec_frame)).
  sample_fact.
Defined.

Lemma accessors_agree_on_same_row_witness :
  (phone_idx blank_contract_store !! normalize_phone "+39 02 555" = Some 1%nat /\
   contract_idx blank_contract_store !! "" = Some 1%nat) /\
  (get_num_tec 4300 blank_contract_store "" 
   = get_num_tec_by_phone 4300 blank_contract_store "+39 02 555" /\
   get_num_amm 4300 blank_contract_store ""
   = get_num_amm_by_phone 4300 blank_contract_store "+39 02 555" /\
   get_wifi_active 4300 blank_contract_store ""
   = get_wifi_active_by_phone 4300 blank_contract_store "+39 02 555" /\
   get_user_name blank_contract_store ""
   = get_user_name_by_phone blank_contract_store "+39 02 555").
Proof.
  split; [split; sample_fact|].
  apply (accessors_agree_on_same_row 4300 blank_contract_store "+39 02 555" "" 1);
    sample_fact.
Defined.

Lemma user_name_accessors_witness :
  sample_load duplicate_frame = Loaded duplicate_store /\
  ((forall i : nat, contract_idx duplicate_store !! "C2" = Some i ->
      exists rec, df_loc (df duplicate_store) i = Some rec /\
        get_user_name duplicate_store "C2"
        = Ok (JObj [("user_name", JStr (cell rec "user_name"))])) /\
   (forall i : nat, phone_idx duplicate_store !! normalize_phone "02555" = Some i ->
      exists rec, df_loc (df duplicate_store) i = Some rec /\
        get_user_name_by_phone duplicate_store "02555"
        = Ok (JObj [("user_name", JStr (cell rec "user_name"))]))).
Proof.
  split; [sample_fact|].
  apply (user_name_accessors default_CSV_PATH default_PHONE_COL
           default_CONTRACT_COL default_DEFAULT_FIELDS (Frame duplicate_frame)).
  sample_fact.
Defined.

Lemma numeric_cells_of_digits_witness :
  (contract_idx blank_contract_store !! "C1" = Some 0%nat /\
   df_loc (df blank_contract_store) 0 = Some first_customer) /\
  Forall (fun rf : Response * string =>
            forall s, first_customer !! rf.2 = Some s ->
              only_digits s = true -> s <> "" ->
              (4300 = 0 \/ String.length s <= 4300)%nat ->
              exists n, (0 <= n)%Z /\ rf.1 = Ok (JObj [(rf.2, JInt n)]))
    [(get_num_tec 4300 blank_contract_store "C1", "num_contact_tec");
     (get_num_amm 4300 blank_contract_store "C1", "num_contact_amm");
     (get_wifi_active 4300 blank_contract_store "C1", "bb_active")].
Proof.
  split; [split; sample_fact|].
  apply (numeric_cells_of_digits 4300 blank_contract_store "C1" 0 first_customer);
    sample_fact.
Defined.

Lemma patched_customer_reachable_witness :
  (sample_load fifty_rows_frame = Loaded fifty_rows_store /\
   default_PHONE_COL <> default_CONTRACT_COL /\
   (49 < List.length (rows fifty_rows_frame))%nat) /\
  (status (get_by_phone default_DEFAULT_FIELDS fifty_rows_store "+393478933194" None)
   = 200%nat /\
   status (get_by_contract default_DEFAULT_FIELDS fifty_rows_store "1234566789" None)
   = 200%nat).
Proof.
  split; [repeat split; first [ sample_fact | vm_compute; lia ]|].
  apply (patched_customer_reachable default_CSV_PATH default_PHONE_COL
           default_CONTRACT_COL default_DEFAULT_FIELDS fifty_rows_frame);
    first [ sample_fact | vm_compute; lia ].
Defined.

Lemma default_projection_complete_witness :
  (sample_load duplicate_frame = Loaded duplicate_store /\
   rectangular duplicate_frame /\ NoDup default_DEFAULT_FIELDS) /\
  ((forall code (i : nat), code <> "" ->
      contract_idx duplicate_store !! code = Some i ->
      exists rec, df_loc (df duplicate_store) i = Some rec /\
        get_by_contract default_DEFAULT_FIELDS duplicate_store code None
        = Ok (JObj [("data",
                     json_of_dict
                       ((fun c => (c, cell rec c)) <$> default_DEFAULT_FIELDS))])) /\
   (forall phone (i : nat),
      phone_idx duplicate_store !! normalize_phone phone = Some i ->
      exists rec, df_loc (df duplicate_store) i = Some rec /\
        get_by_phone default_DEFAULT_FIELDS duplicate_store phone None
        = Ok (JObj [("data",
                     json_of_dict
                       ((fun c => (c, cell rec c)) <$> default_DEFAULT_FIELDS))]))).
Proof.
  assert (Hrect : rectangular duplicate_frame) by sample_rectangular.
  assert (Hnd : NoDup default_DEFAULT_FIELDS).
  { apply (bool_decide_unpack _). vm_compute. exact I. }
  split; [repeat split; first [ sample_fact | assumption ]|].
  apply (default_projection_complete default_CSV_PATH default_PHONE_COL
           default_CONTRACT_COL default_DEFAULT_FIELDS duplicate_frame
           duplicate_store); first [ sample_fact | assumption ].
Defined.

Lemma list_phones_spec_witness :
  sample_load duplicate_frame = Loaded duplicate_store /\
  ((List.length (list_phones default_PHONE_COL duplicate_store) <= 20)%nat /\
   NoDup (list_phones default_PHONE_COL duplicate_store) /\
   (forall k, k ∈ list_phones default_PHONE_COL duplicate_store ->
      is_Some (phone_idx duplicate_store !! k)) /\
   ((size (phone_idx duplicate_store) <= 20)%nat ->
    forall k, is_Some (phone_idx duplicate_store !! k) ->
      k ∈ list_phones default_PHONE_COL duplicate_store)).
Proof.
  split; [sample_fact|].
  apply (list_phones_spec default_CSV_PATH default_PHONE_COL
           default_CONTRACT_COL default_DEFAULT_FIELDS (Frame duplicate_frame)).
  sample_fact.
Defined.

(** The listing follows the order of first appearance in the file. *)
Example list_phones_duplicate_frame :
  list_phones default_PHONE_COL duplicate_store = ["+3471234567"; "+02555"].
Proof. vm_compute; reflexivity. Qed.

Lemma wanted_fields_explicit_witness :
  "status,,platform" <> "" /\
  (wanted_fields default_DEFAULT_FIELDS (Some "status,,platform") <> [] /\
   PyStr.join "," (wanted_fields default_DEFAULT_FIELDS (Some "status,,platform"))
   = "status,,platform" /\
   Forall (fun n => str_contains "," n = false)
     (wanted_fields default_DEFAULT_FIELDS (Some "status,,platform"))).
Proof.
  split; [discriminate|].
  apply (wanted_fields_explicit default_DEFAULT_FIELDS "status,,platform").
  discriminate.
Defined.

Lemma load_data_succeeds_iff_witness :
  default_PHONE_COL <> default_CONTRACT_COL /\
  ((exists st, sample_load duplicate_frame = Loaded st) <->
   exists raw, Frame duplicate_frame = Frame raw /\
     default_PHONE_COL ∈ columns raw /\ default_CONTRACT_COL ∈ columns raw /\
     Forall (fun c => c ∈ columns raw) default_DEFAULT_FIELDS).
Proof.
  split; [discriminate|].
  apply (load_data_succeeds_iff default_CSV_PATH default_PHONE_COL
           default_CONTRACT_COL default_DEFAULT_FIELDS (Frame duplicate_frame)).
  discriminate.
Defined.

(** A table without the contract column is refused, and the message names
    the missing column. *)
Example load_data_missing_contract_column :
  load_data default_CSV_PATH default_PHONE_COL default_CONTRACT_COL ["platform"]
    (Frame {| columns := ["phone_number"; "platform"]; rows := [] |})
  = RuntimeError "Error loading data: Missing required columns: contract_code".
Proof. vm_compute; reflexivity. Qed.
